(** * run_pmi_reddit.py: the PMI sentiment pipeline over Reddit comments

    A shallow embedding of [src/run_pmi_reddit.py].  The script is one chain
    of Spark DataFrame transformations; every DataFrame is modelled by the
    list of its rows and every transformation by a function on such lists.

    - A comment is a nullable string: [option (list N)], one [N] per Unicode
      code point, because [length] counts characters.
    - After [regexp_replace] only ASCII letters and ASCII white space are
      left, so the [text] column and the tokens are [string]s.
    - Integer columns ([count], [context_count], ...) are Spark longs, here [Z].
    - The arithmetic of the double columns ([/], [*], [-], [log2], and the
      order [orderBy] sorts with) is supplied by the JVM; it is an interface,
      [DoubleOps], with the exact real numbers as the instance used where a
      statement is an identity of real arithmetic.

    The modules [Reddit], [Steam] and [Instagram] embed the pure parts of
    the scrapers: the filters of [reddit_scraper_no_api.py], whose output
    file the pipeline reads, the comment field of [scraping_steam.py], and
    the shortcode functions of [scraping_ig.py]. *)

From Stdlib Require Import List String Ascii ZArith NArith Bool Arith Lia.
From Stdlib Require Import Permutation Sorted Reals Lra.
Import ListNotations.

Local Open Scope string_scope.
Local Open Scope Z_scope.

(* ================================================================== *)
(** * Column functions of [pyspark.sql.functions] used by the script *)
(* ================================================================== *)

Module Col.

(** A comment as read from the CSV: one code point per character. *)
Definition ustring := list N.

(** The code points of an ASCII literal. *)
Definition codepoints (s : string) : ustring :=
  map N_of_ascii (list_ascii_of_string s).

(** [a-zA-Z] of the pattern. *)
Definition is_letter (c : N) : bool :=
  ((65 <=? c) && (c <=? 90) || (97 <=? c) && (c <=? 122))%N.

(** [\s] of a Java pattern: space, tab, line feed, vertical tab, form feed,
    carriage return. *)
Definition is_space (c : N) : bool :=
  ((c =? 32) || (9 <=? c) && (c <=? 13))%N.

Definition space : ascii := " "%char.

(** [regexp_replace(col, "[^a-zA-Z\\s]", " ")]: every character outside
    the class becomes one space; the others are kept (all of them ASCII). *)
Definition regexp_replace_non_alpha (s : ustring) : string :=
  string_of_list_ascii
    (map (fun c => if is_letter c || is_space c then ascii_of_N c else space) s).

(** [lower] on one character: only [A-Z] can change. *)
Definition lower_ascii (a : ascii) : ascii :=
  let n := N_of_ascii a in
  if ((65 <=? n) && (n <=? 90))%N then ascii_of_N (n + 32) else a.

Fixpoint lower (s : string) : string :=
  match s with
  | EmptyString => EmptyString
  | String a s' => String (lower_ascii a) (lower s')
  end.

(** [trim]: Spark removes the space character (and only it) at both ends. *)
Fixpoint ltrim (cs : list ascii) : list ascii :=
  match cs with
  | a :: cs' => if Ascii.eqb a space then ltrim cs' else cs
  | [] => []
  end.

Definition trim (s : string) : string :=
  string_of_list_ascii (rev (ltrim (rev (ltrim (list_ascii_of_string s))))).

(** [split(col, "\\s+")] (limit -1): the pieces between maximal runs of
    white space; a run at the very start gives an empty first piece, a run
    at the very end an empty last piece, and the empty string gives one
    empty piece.  [cur] is the piece being read, reversed; [in_ws] says that
    the previous character belonged to a separator. *)
Fixpoint split_ws_from (cs cur : list ascii) (in_ws : bool) : list string :=
  match cs with
  | [] => [string_of_list_ascii (rev cur)]
  | a :: cs' =>
      if is_space (N_of_ascii a) then
        if in_ws then split_ws_from cs' cur true
        else string_of_list_ascii (rev cur) :: split_ws_from cs' [] true
      else split_ws_from cs' (a :: cur) false
  end.

Definition split_ws (s : string) : list string :=
  split_ws_from (list_ascii_of_string s) [] false.

(** [col.isin(values)]. *)
Definition isin (w : string) (values : list string) : bool :=
  existsb (String.eqb w) values.

(** [col.rlike(pat)] for a pattern without metacharacters: [pat] occurs
    somewhere in the value. *)
Fixpoint rlike (s pat : string) : bool :=
  String.prefix pat s ||
  match s with
  | EmptyString => false
  | String _ s' => rlike s' pat
  end.

(** [length(col)] as a long. *)
Definition length_s (s : string) : Z := Z.of_nat (String.length s).
Definition length_u (s : ustring) : Z := Z.of_nat (List.length s).

End Col.

(* ================================================================== *)
(** * DataFrame operations *)
(* ================================================================== *)

Module Frame.

(** One more occurrence of [w] in a table of counts. *)
Fixpoint bump (w : string) (t : list (string * Z)) : list (string * Z) :=
  match t with
  | [] => [(w, 1)]
  | (k, c) :: t' =>
      if String.eqb k w then (k, c + 1) :: t' else (k, c) :: bump w t'
  end.

(** [df.groupBy("word").count()]: one row per distinct word with the number
    of its rows.  Spark leaves the order of the groups open; the model lists
    them by first occurrence. *)
Definition groupBy_count (ws : list string) : list (string * Z) :=
  fold_left (fun t w => bump w t) ws [].

(** The right side of a left join on [word]: the matching row's count, or
    null. *)
Fixpoint lookup (w : string) (t : list (string * Z)) : option Z :=
  match t with
  | [] => None
  | (k, c) :: t' => if String.eqb k w then Some c else lookup w t'
  end.

(** [.na.fill(0)] on a long column. *)
Definition na_fill0 (v : option Z) : Z :=
  match v with Some c => c | None => 0 end.

Definition sum_Z (l : list Z) : Z := fold_right Z.add 0 l.

(** [df.agg({c: "sum"}).collect()[0][0]]: the sum of the column, null
    ([None]) on a DataFrame without rows. *)
Definition agg_sum (col : list Z) : option Z :=
  match col with
  | [] => None
  | _ => Some (sum_Z col)
  end.

(** Python's [x or d] on an optional integer: [None] and [0] are falsy. *)
Definition py_or (x : option Z) (d : Z) : Z :=
  match x with
  | None => d
  | Some 0 => d
  | Some v => v
  end.

Section Sorting.
Context {A : Type} (le : A -> A -> bool).

Fixpoint insert_row (x : A) (l : list A) : list A :=
  match l with
  | [] => [x]
  | y :: l' => if le x y then x :: y :: l' else y :: insert_row x l'
  end.

(** [df.orderBy(...)], as a stable insertion sort: among rows the order
    does not separate, the earlier row stays first.  Spark itself fixes
    no order among such rows. *)
Definition orderBy (l : list A) : list A :=
  fold_right insert_row [] l.

End Sorting.

(** [df.limit(n)]. *)
Definition limit {A : Type} (n : nat) (l : list A) : list A := firstn n l.

End Frame.

(* ================================================================== *)
(** * Double columns *)
(* ================================================================== *)

(** What the script asks of Spark's [DoubleType]: the cast of a long, the
    three arithmetic operators, [log2], and the order used by [orderBy]. *)
Class DoubleOps (D : Type) : Type := {
  of_long : Z -> D;
  ddiv : D -> D -> D;
  dmul : D -> D -> D;
  dsub : D -> D -> D;
  dlog2 : D -> D;
  dleb : D -> D -> bool
}.

(** The logarithm to base 2 of a real number. *)
Definition log2R (x : R) : R := (ln x / ln 2)%R.

(** Exact real arithmetic: the doubles without rounding. *)
#[export] Instance RealOps : DoubleOps R := {
  of_long := IZR;
  ddiv := Rdiv;
  dmul := Rmult;
  dsub := Rminus;
  dlog2 := log2R;
  dleb := fun a b => if Rle_dec a b then true else false
}.

(* ================================================================== *)
(** * The word lists of the script *)
(* ================================================================== *)

Definition custom_noise_words : list string :=
  [ "im"; "ive"; "dont"; "didnt"; "thats"; "theres"; "cant"; "doesnt";
    "also"; "really"; "much"; "many"; "one"; "even"; "still"; "lot";
    "way"; "got"; "get"; "going"; "go"; "say"; "see"; "know"; "think";
    ""; "would"; "could"; "just"; "like"; "game"; "games"; "play";
    "played"; "playing"; "its"; "thats"; "youre"; "theyre"; "weve" ].

Definition positive_words : list string :=
  [ "good"; "great"; "love"; "amazing"; "fun"; "best";
    "better"; "awesome"; "excellent"; "beautiful"; "perfect";
    "incredible"; "fantastic"; "wonderful"; "enjoy"; "enjoyed" ].

Definition negative_words : list string :=
  [ "bad"; "terrible"; "awful"; "worst"; "boring";
    "hate"; "issue"; "problem"; "disappointing"; "broken";
    "bug"; "bugs"; "glitch"; "crash"; "frustrating"; "repetitive" ].

Definition ambiguous_words : list string :=
  [ "never"; "since"; "think"; "going"; "way"; "say"; "something"; "put";
    "actually"; "still"; "see"; "odyssey"; "shadows"; "assassin"; "creed";
    "understand"; "buy"; "japanese"; "thing"; "video"; "channel";
    "missions"; "much"; "want"; "know"; "people"; "ubisoft"; "naoe"; "yasuke";
    "time"; "first"; "new"; "world"; "feel"; "combat"; "stealth"; "series";
    "make"; "well"; "main"; "hours"; "feels"; "back"; "japan"; "story";
    "character"; "characters"; "graphics"; "gameplay" ].

(** The default English list of [StopWordsRemover]
    ([StopWordsRemover.loadDefaultStopWords("english")]).  It belongs to
    Spark, not to the script: the pipeline below takes the stop words as a
    parameter and this list is its value in a run of the script. *)
Definition english_stop_words : list string :=
  [ "i"; "me"; "my"; "myself"; "we"; "our"; "ours"; "ourselves"; "you";
    "your"; "yours"; "yourself"; "yourselves"; "he"; "him"; "his";
    "himself"; "she"; "her"; "hers"; "herself"; "it"; "its"; "itself";
    "they"; "them"; "their"; "theirs"; "themselves"; "what"; "which";
    "who"; "whom"; "this"; "that"; "these"; "those"; "am"; "is"; "are";
    "was"; "were"; "be"; "been"; "being"; "have"; "has"; "had"; "having";
    "do"; "does"; "did"; "doing"; "a"; "an"; "the"; "and"; "but"; "if";
    "or"; "because"; "as"; "until"; "while"; "of"; "at"; "by"; "for";
    "with"; "about"; "against"; "between"; "into"; "through"; "during";
    "before"; "after"; "above"; "below"; "to"; "from"; "up"; "down"; "in";
    "out"; "on"; "off"; "over"; "under"; "again"; "further"; "then";
    "once"; "here"; "there"; "when"; "where"; "why"; "how"; "all"; "any";
    "both"; "each"; "few"; "more"; "most"; "other"; "some"; "such"; "no";
    "nor"; "not"; "only"; "own"; "same"; "so"; "than"; "too"; "very"; "s";
    "t"; "can"; "will"; "just"; "don"; "should"; "now"; "i'll"; "you'll";
    "he'll"; "she'll"; "we'll"; "they'll"; "i'd"; "you'd"; "he'd"; "she'd";
    "we'd"; "they'd"; "i'm"; "you're"; "he's"; "she's"; "it's"; "we're";
    "they're"; "i've"; "we've"; "you've"; "they've"; "isn't"; "aren't";
    "wasn't"; "weren't"; "haven't"; "hasn't"; "hadn't"; "don't";
    "doesn't"; "didn't"; "won't"; "wouldn't"; "shan't"; "shouldn't";
    "mustn't"; "can't"; "couldn't"; "cannot"; "could"; "here's"; "how's";
    "let's"; "ought"; "that's"; "there's"; "what's"; "when's"; "where's";
    "who's"; "why's"; "would" ].

(* ================================================================== *)
(** * The pipeline *)
(* ================================================================== *)

(** A row of [pmi_df], with every column the chain of [withColumn] adds. *)
Record PmiRow (D : Type) : Type := mkPmiRow {
  word : string;
  context_count : Z;
  pos_count : Z;
  neg_count : Z;
  pos_count_s : Z;
  neg_count_s : Z;
  p_w : D;
  p_pos : D;
  p_neg : D;
  p_w_pos_s : D;
  p_w_neg_s : D;
  pmi_positive : D;
  pmi_negative : D;
  sentiment_score : D
}.

Arguments mkPmiRow {D}.
Arguments word {D}.
Arguments context_count {D}.
Arguments pos_count {D}.
Arguments neg_count {D}.
Arguments pos_count_s {D}.
Arguments neg_count_s {D}.
Arguments p_w {D}.
Arguments p_pos {D}.
Arguments p_neg {D}.
Arguments p_w_pos_s {D}.
Arguments p_w_neg_s {D}.
Arguments pmi_positive {D}.
Arguments pmi_negative {D}.
Arguments sentiment_score {D}.

(** [.select("word", "context_count", "sentiment_score")]. *)
Definition select3 {D : Type} (r : PmiRow D) : string * Z * D :=
  (word r, context_count r, sentiment_score r).

(** The value of [alpha], the smoothing factor. *)
Definition alpha : Z := 1.

Section Normalizer.
Import Col Frame.

(** The stop words of the [StopWordsRemover]. *)
Variable stop_words : list string.

(** The [comment] column of the CSV, null where the field is missing. *)
Definition dataframe := list (option ustring).

Definition isNotNull (c : option ustring) : bool :=
  match c with Some _ => true | None => false end.

(** [length(col("comment")) > k]; a comparison with null is not true. *)
Definition length_gt (k : Z) (c : option ustring) : bool :=
  match c with Some s => k <? length_u s | None => false end.

Definition df_clean (df : dataframe) : dataframe :=
  filter (length_gt 20) (filter isNotNull df).

(** Column [text]. *)
Definition text (c : option ustring) : option string :=
  option_map (fun s => lower (regexp_replace_non_alpha s)) c.

(** Column [tokens]. *)
Definition tokens (c : option ustring) : option (list string) :=
  option_map (fun t => split_ws (trim t)) (text c).

(** [StopWordsRemover] with its default [caseSensitive=False]: a token goes
    when its lower case is the lower case of a stop word. *)
Definition remove_stop_words (ws : list string) : list string :=
  filter (fun w => negb (isin (lower w) (map lower stop_words))) ws.

(** Column [clean_tokens]. *)
Definition clean_tokens (c : option ustring) : option (list string) :=
  option_map remove_stop_words (tokens c).

(** [explode]: one row per element; no row for a null array. *)
Definition explode (a : option (list string)) : list string :=
  match a with Some ws => ws | None => [] end.

(** The five filters on [word]. *)
Definition keep_word (w : string) : bool :=
  negb (isin w custom_noise_words)
  && (2 <? length_s w)
  && negb (rlike w "http")
  && negb (rlike w "www")
  && negb (rlike w "https").

(** The words one comment contributes to [clean_words_df]. *)
Definition normalize (c : option ustring) : list string :=
  filter keep_word (explode (clean_tokens c)).

Definition clean_words_df (df : dataframe) : list string :=
  flat_map normalize (df_clean df).

End Normalizer.

(** Everything after [clean_words_df] reads that DataFrame only: the
    definitions below take its rows, [clean_words]. *)
Section Scorer.
Import Col Frame.
Context {D : Type} {ops : DoubleOps D}.

(** The two seed lexicons; [positive_words] and [negative_words] in a run. *)
Variables pos_lexicon neg_lexicon : list string.

Definition count_desc (a b : string * Z) : bool := snd b <=? snd a.

Definition word_freq_clean (clean_words : list string) : list (string * Z) :=
  orderBy count_desc (groupBy_count clean_words).

Definition total_tokens (clean_words : list string) : Z :=
  Z.of_nat (List.length clean_words).

Definition word_counts (clean_words : list string) : list (string * Z) :=
  groupBy_count clean_words.

Definition pos_counts (clean_words : list string) : list (string * Z) :=
  groupBy_count (filter (fun w => isin w pos_lexicon) clean_words).

Definition neg_counts (clean_words : list string) : list (string * Z) :=
  groupBy_count (filter (fun w => isin w neg_lexicon) clean_words).

Definition total_pos (clean_words : list string) : Z :=
  py_or (agg_sum (map snd (pos_counts clean_words))) 1.

Definition total_neg (clean_words : list string) : Z :=
  py_or (agg_sum (map snd (neg_counts clean_words))) 1.

(** One row of [pmi_df]: the row [(w, c)] of [word_counts], the matches [p]
    and [n] of the two left joins, nulls filled with 0, then the columns in
    the order of the script. *)
Definition pmi_row (N P Q : Z) (w : string) (c : Z) (p n : option Z)
  : PmiRow D :=
  let pos_count := na_fill0 p in
  let neg_count := na_fill0 n in
  let pos_count_s := pos_count + alpha in
  let neg_count_s := neg_count + alpha in
  let p_w := ddiv (of_long c) (of_long N) in
  let p_pos := ddiv (of_long P) (of_long N) in
  let p_neg := ddiv (of_long Q) (of_long N) in
  let p_w_pos_s := ddiv (of_long pos_count_s) (of_long N) in
  let p_w_neg_s := ddiv (of_long neg_count_s) (of_long N) in
  let pmi_positive := dlog2 (ddiv p_w_pos_s (dmul p_w p_pos)) in
  let pmi_negative := dlog2 (ddiv p_w_neg_s (dmul p_w p_neg)) in
  mkPmiRow w c pos_count neg_count pos_count_s neg_count_s
           p_w p_pos p_neg p_w_pos_s p_w_neg_s pmi_positive pmi_negative
           (dsub pmi_positive pmi_negative).

Definition pmi_df (clean_words : list string) : list (PmiRow D) :=
  map (fun wc => pmi_row (total_tokens clean_words)
                         (total_pos clean_words) (total_neg clean_words)
                         (fst wc) (snd wc)
                         (lookup (fst wc) (pos_counts clean_words))
                         (lookup (fst wc) (neg_counts clean_words)))
      (word_counts clean_words).

Definition pmi_filtered (clean_words : list string) : list (PmiRow D) :=
  filter (fun r => negb (isin (word r) ambiguous_words))
         (filter (fun r => 5 <=? context_count r) (pmi_df clean_words)).

Definition score_desc (a b : PmiRow D) : bool :=
  dleb (sentiment_score b) (sentiment_score a).

Definition score_asc (a b : PmiRow D) : bool :=
  dleb (sentiment_score a) (sentiment_score b).

Definition top_pos (clean_words : list string) : list (string * Z * D) :=
  limit 10 (map select3 (orderBy score_desc (pmi_filtered clean_words))).

Definition top_neg (clean_words : list string) : list (string * Z * D) :=
  limit 10 (map select3 (orderBy score_asc (pmi_filtered clean_words))).

(** The rows written to [reddit_word_freq.csv]. *)
Definition word_freq_top100 (clean_words : list string)
  : list (string * Z) :=
  limit 100 (word_freq_clean clean_words).

End Scorer.

(** The three tables the script writes. *)
Record Results (D : Type) : Type := mkResults {
  reddit_pmi_positive : list (string * Z * D);
  reddit_pmi_negative : list (string * Z * D);
  reddit_word_freq : list (string * Z)
}.

Arguments mkResults {D}.
Arguments reddit_pmi_positive {D}.
Arguments reddit_pmi_negative {D}.
Arguments reddit_word_freq {D}.

(** The script from the loaded DataFrame to the three tables. *)
Definition run_pmi_reddit {D : Type} {ops : DoubleOps D}
  (stop_words : list string) (df : dataframe) : Results D :=
  let clean_words := clean_words_df stop_words df in
  mkResults (top_pos positive_words negative_words clean_words)
            (top_neg positive_words negative_words clean_words)
            (word_freq_top100 clean_words).

(** The score of token [t] in a table of scored rows, if [t] has a row. *)
Definition score_of {D : Type} (t : string) (rows : list (PmiRow D))
  : option D :=
  option_map sentiment_score (find (fun r => String.eqb (word r) t) rows).

(** The [word] column of a ranked table. *)
Definition words_of {D : Type} (table : list (string * Z * D)) : list string :=
  map (fun row => fst (fst row)) table.

(** ** The formula of the specification *)

(** "Each defaulting to 1 if zero". *)
Definition or_one (s : Z) : Z := if s =? 0 then 1 else s.

(** [score = log2(((p+alpha)/N) / ((c/N)*(P/N))) - log2(((n+alpha)/N) /
    ((c/N)*(Q/N)))], written with the operations of the double columns. *)
Definition spec_pmi {D : Type} {ops : DoubleOps D} (c k N T : Z) : D :=
  dlog2 (ddiv (ddiv (of_long (k + alpha)) (of_long N))
              (dmul (ddiv (of_long c) (of_long N))
                    (ddiv (of_long T) (of_long N)))).

Definition spec_score {D : Type} {ops : DoubleOps D} (c p n N P Q : Z) : D :=
  dsub (spec_pmi c p N P) (spec_pmi c n N Q).

(** ** Sample corpora *)

(** The corpus of the specification's two-document scenario. *)
Definition good_bad_corpus : dataframe :=
  [ Some (Col.codepoints "good game good");
    Some (Col.codepoints "bad game bad") ].

(** A comment long enough to pass the row filter: five times "great", once
    "bad". *)
Definition great_comment : option Col.ustring :=
  Some (Col.codepoints "great great great great great bad").

(** ** Predicates on words *)

(** [a-z]. *)
Definition is_lower_letter (a : ascii) : bool :=
  let n := N_of_ascii a in ((97 <=? n) && (n <=? 122))%N.

(** The word is made of the letters [a-z] only. *)
Definition all_lower_letters (w : string) : bool :=
  forallb is_lower_letter (list_ascii_of_string w).

(** A character of the [text] column: a lower-case letter or white space. *)
Definition lower_or_space (a : ascii) : Prop :=
  is_lower_letter a = true \/ Col.is_space (N_of_ascii a) = true.

(** A code point with the letters [A-Z] made lower case. *)
Definition lower_code (c : N) : N :=
  if ((65 <=? c) && (c <=? 90))%N then (c + 32)%N else c.

(** A comment with its ASCII capitals made lower case. *)
Definition fold_case (s : Col.ustring) : Col.ustring := map lower_code s.

(** [keep_word] without its last filter, the one on "https". *)
Definition keep_word_two_url_filters (w : string) : bool :=
  negb (Col.isin w custom_noise_words)
  && (2 <? Col.length_s w)
  && negb (Col.rlike w "http")
  && negb (Col.rlike w "www").

(* ================================================================== *)
(** * reddit_scraper_no_api.py: what the scraper keeps of a comment tree *)
(* ================================================================== *)

(** The scraper writes [data/reddit_posts.csv], the file the pipeline
    reads.  Texts are Python strings, lists of code points. *)
Module Reddit.
Import Col.

Definition REQUIRED_TERMS : list ustring :=
  map codepoints ["shadows"; "naoe"; "yasuke"].

Definition MIN_TEXT_LENGTH : Z := 100.

(** [s.startswith(p)]. *)
Fixpoint starts_with (p s : ustring) : bool :=
  match p, s with
  | [], _ => true
  | _ :: _, [] => false
  | a :: p', b :: s' => (a =? b)%N && starts_with p' s'
  end.

(** Python's [sub in s] on strings. *)
Fixpoint contains (sub s : ustring) : bool :=
  starts_with sub s ||
  match s with
  | [] => false
  | _ :: s' => contains sub s'
  end.

(** The list inside [is_review_like]. *)
Definition review_indicators : list ustring :=
  map codepoints
    [ "game"; "play"; "story"; "gameplay"; "combat"; "stealth";
      "think"; "feel"; "opinion"; "review"; "recommend"; "worth";
      "good"; "bad"; "great"; "terrible"; "love"; "hate"; "enjoy";
      "ubisoft"; "assassin"; "creed" ].

(** [d.get(key, default)], the key absent when the field is [None]. *)
Definition get {A : Type} (v : option A) (default : A) : A :=
  match v with Some x => x | None => default end.

Section Scraper.

(** Python's [str.lower]. *)
Variable py_lower : ustring -> ustring.
(** The JSON values the scraper copies without looking into them, with
    ['[deleted]'] and [0], the defaults of [author] and of [score] and
    [created_utc]. *)
Variable json : Type.
Variables deleted zero : json.
(** The date column of a [created_utc] value: [fromtimestamp] then
    [strftime], or the current date when the value is falsy. *)
Variable date_of : json -> ustring.

Definition contains_required_terms (text : ustring) : bool :=
  let text_lower := py_lower text in
  existsb (fun term => contains (py_lower term) text_lower) REQUIRED_TERMS.

Definition is_review_like (text : ustring) : bool :=
  if length_u text <? MIN_TEXT_LENGTH then false
  else
    let text_lower := py_lower text in
    let matches :=
      Z.of_nat (List.length
                  (filter (fun ind => contains ind text_lower)
                          review_indicators)) in
    3 <=? matches.

(** The [data] of a comment: [body] is [None] when the key is absent or
    null, the other fields when the key is absent. *)
Record CommentData : Type := mkCommentData {
  body : option ustring;
  author : option json;
  score : option json;
  created_utc : option json
}.

(** A row of the CSV. *)
Record Row : Type := mkRow {
  row_user : json;
  row_date : ustring;
  row_comment : ustring;
  row_score : json;
  row_type : string
}.

Definition parse_comment (data : CommentData) : option Row :=
  match body data with
  | None => None
  | Some text =>
      if negb (contains_required_terms text) then None
      else if length_u text <? MIN_TEXT_LENGTH then None
      else if negb (is_review_like text) then None
      else Some (mkRow (get (author data) deleted)
                       (date_of (get (created_utc data) zero))
                       (firstn 5000 text)
                       (get (score data) zero)
                       "comment")
  end.

(** A child of a listing: its [kind], its [data], and the children of its
    [replies] (none when [replies] is not a listing). *)
#[warnings="-register-all"]
Inductive Thing : Type :=
| mkThing : option string -> CommentData -> list Thing -> Thing.

Definition is_t1 (kind : option string) : bool :=
  match kind with Some k => String.eqb k "t1" | None => false end.

Definition row_list (r : option Row) : list Row :=
  match r with Some x => [x] | None => [] end.

(** What one child adds to [comments]: its own row, then the rows of its
    replies; nothing when it is not a ['t1']. *)
Fixpoint extract_child (child : Thing) : list Row :=
  match child with
  | mkThing kind data replies =>
      if is_t1 kind
      then (row_list (parse_comment data)
            ++ flat_map extract_child replies)%list
      else []
  end.

Definition extract_comments (children : list Thing) : list Row :=
  flat_map extract_child children.

End Scraper.

Arguments mkCommentData {json}.
Arguments body {json}.
Arguments author {json}.
Arguments score {json}.
Arguments created_utc {json}.
Arguments mkRow {json}.
Arguments row_user {json}.
Arguments row_date {json}.
Arguments row_comment {json}.
Arguments row_score {json}.
Arguments row_type {json}.
Arguments mkThing {json}.
Arguments parse_comment py_lower {json}.
Arguments extract_child py_lower {json}.
Arguments extract_comments py_lower {json}.

(** A comment of exactly 100 characters about the game. *)
Definition sample_body : ustring :=
  codepoints
    ("I think the Shadows gameplay is great, and the story of Naoe "
     ++ "is worth every hour I spent playing it.").

End Reddit.

(* ================================================================== *)
(** * scraping_steam.py: the comment of a review row *)
(* ================================================================== *)

Module Steam.
Import Col.

(** [s.replace(old, new)] for one-character [old] and [new]. *)
Definition replace_char (old new : N) (s : ustring) : ustring :=
  map (fun c => if (c =? old)%N then new else c) s.

(** The [comment] field: [r.get("review", "")] with carriage returns, then
    line feeds, replaced by spaces. *)
Definition review_comment (review : option ustring) : ustring :=
  replace_char 10 32 (replace_char 13 32 (Reddit.get review [])).

End Steam.

(* ================================================================== *)
(** * scraping_ig.py: the shortcode of a post *)
(* ================================================================== *)

Module Instagram.
Import Col.

(** [A-Za-z0-9_-]. *)
Definition is_code_char (c : N) : bool :=
  (is_letter c || (48 <=? c) && (c <=? 57) || (c =? 95) || (c =? 45))%N.

Fixpoint take_while (f : N -> bool) (s : ustring) : ustring :=
  match s with
  | c :: s' => if f c then c :: take_while f s' else []
  | [] => []
  end.

(** The pattern with one of its three alternatives, matched at the start of
    [s]: [pre] is "/p/", "/reel/" or "/tv/"; group 2 is the longest run of
    code characters after it, and there must be one at least. *)
Definition match_with (pre : string) (s : ustring) : option ustring :=
  if Reddit.starts_with (codepoints pre) s then
    match take_while is_code_char (skipn (String.length pre) s) with
    | [] => None
    | g => Some g
    end
  else None.

(** [/(p|reel|tv)/([A-Za-z0-9_-]+)] matched at the start of [s]. *)
Definition match_at (s : ustring) : option ustring :=
  match match_with "/p/" s with
  | Some g => Some g
  | None =>
      match match_with "/reel/" s with
      | Some g => Some g
      | None => match_with "/tv/" s
      end
  end.

(** [re.search(pattern, s)], then [group(2)]: the leftmost match. *)
Fixpoint re_search (s : ustring) : option ustring :=
  match match_at s with
  | Some g => Some g
  | None =>
      match s with
      | [] => None
      | _ :: s' => re_search s'
      end
  end.

Section Shortcode.

(** Python's [str.strip]. *)
Variable py_strip : ustring -> ustring.

Definition clean_shortcode (url_or_code : ustring) : ustring :=
  match re_search url_or_code with
  | Some g => g
  | None => filter is_code_char (py_strip url_or_code)
  end.

(** The code [get_media_id] hands to [media_pk_from_code]. *)
Definition media_code (input_value : ustring) : ustring :=
  let code := clean_shortcode input_value in
  if 11 <=? length_u code then firstn 11 code else code.

End Shortcode.

End Instagram.

(** The number of rows of a one-column DataFrame that hold [w]. *)
Definition occ (w : string) (ws : list string) : Z :=
  Z.of_nat (count_occ string_dec ws w).

(* ================================================================== *)
(** * Facts about the DataFrame operations *)
(* ================================================================== *)

Module FrameFacts.
Import Frame.

Lemma occ_nonneg w ws : 0 <= occ w ws.
Proof. unfold occ. lia. Qed.

Lemma occ_cons w x ws :
  occ w (x :: ws) = (if String.eqb x w then 1 else 0) + occ w ws.
Proof.
  unfold occ. simpl.
  destruct (string_dec x w) as [E | E].
  - subst. rewrite String.eqb_refl. lia.
  - apply String.eqb_neq in E. rewrite E. lia.
Qed.

Lemma occ_pos_iff w ws : 0 < occ w ws <-> In w ws.
Proof.
  unfold occ. rewrite (count_occ_In string_dec). lia.
Qed.

Lemma occ_filter f w ws :
  occ w (filter f ws) = if f w then occ w ws else 0.
Proof.
  induction ws as [| x ws IH]; simpl.
  - now destruct (f w).
  - destruct (f x) eqn:Fx.
    + rewrite !occ_cons, IH.
      destruct (String.eqb x w) eqn:E.
      * apply String.eqb_eq in E. subst. now rewrite Fx.
      * now destruct (f w).
    + rewrite IH, occ_cons.
      destruct (String.eqb x w) eqn:E.
      * apply String.eqb_eq in E. subst. now rewrite Fx.
      * now destruct (f w).
Qed.

(** ** [bump] and [groupBy_count] *)

Lemma lookup_bump w k t :
  lookup w (bump k t) =
  if String.eqb k w then Some (na_fill0 (lookup w t) + 1) else lookup w t.
Proof.
  induction t as [| [k0 c0] t IH]; simpl.
  - destruct (String.eqb k w); reflexivity.
  - destruct (String.eqb k0 k) eqn:E0; simpl.
    + apply String.eqb_eq in E0. subst k0.
      destruct (String.eqb k w); reflexivity.
    + destruct (String.eqb k0 w) eqn:E1.
      * apply String.eqb_eq in E1. subst k0.
        rewrite String.eqb_sym in E0. now rewrite E0.
      * exact IH.
Qed.

Lemma lookup_fold_bump w ws : forall t,
  lookup w (fold_left (fun t x => bump x t) ws t) =
  if occ w ws =? 0 then lookup w t
  else Some (na_fill0 (lookup w t) + occ w ws).
Proof.
  induction ws as [| x ws IH]; intro t; simpl.
  - reflexivity.
  - rewrite IH, lookup_bump, occ_cons.
    pose proof (occ_nonneg w ws) as Hn.
    destruct (String.eqb x w); simpl na_fill0.
    + destruct (occ w ws =? 0) eqn:E0.
      * apply Z.eqb_eq in E0. rewrite E0. simpl. reflexivity.
      * apply Z.eqb_neq in E0.
        replace (1 + occ w ws =? 0) with false by (symmetry; apply Z.eqb_neq; lia).
        f_equal. lia.
    + reflexivity.
Qed.

(** The count of a group is the number of rows of the group; a word without
    rows has no group. *)
Lemma lookup_groupBy_count w ws :
  lookup w (groupBy_count ws) =
  if occ w ws =? 0 then None else Some (occ w ws).
Proof.
  unfold groupBy_count. rewrite lookup_fold_bump. simpl.
  destruct (occ w ws =? 0); reflexivity.
Qed.

Lemma keys_bump k t :
  map fst (bump k t) =
  if existsb (String.eqb k) (map fst t) then map fst t
  else (map fst t ++ [k])%list.
Proof.
  induction t as [| [k0 c0] t IH]; simpl.
  - reflexivity.
  - rewrite (String.eqb_sym k k0).
    destruct (String.eqb k0 k); simpl.
    + reflexivity.
    + rewrite IH. destruct (existsb (String.eqb k) (map fst t)); reflexivity.
Qed.

Lemma NoDup_keys_bump k t : NoDup (map fst t) -> NoDup (map fst (bump k t)).
Proof.
  intro H. rewrite keys_bump.
  destruct (existsb (String.eqb k) (map fst t)) eqn:E; [ exact H |].
  apply NoDup_app; [ exact H | repeat constructor; intros [] | ].
  intros x Hx Hk. destruct Hk as [-> | []].
  assert (existsb (String.eqb x) (map fst t) = true) as C.
  { apply existsb_exists. exists x. split; [ exact Hx | apply String.eqb_refl ]. }
  congruence.
Qed.

Lemma NoDup_keys_fold ws : forall t,
  NoDup (map fst t) -> NoDup (map fst (fold_left (fun t x => bump x t) ws t)).
Proof.
  induction ws as [| x ws IH]; intros t H; simpl; [ exact H |].
  apply IH, NoDup_keys_bump, H.
Qed.

(** [groupBy] gives one row per word. *)
Lemma NoDup_keys_groupBy_count ws : NoDup (map fst (groupBy_count ws)).
Proof. apply NoDup_keys_fold. constructor. Qed.

Lemma lookup_In w c t :
  NoDup (map fst t) -> In (w, c) t -> lookup w t = Some c.
Proof.
  induction t as [| [k0 c0] t IH]; simpl; intros N H; [ contradiction |].
  inversion N as [| ? ? Hnot Ht]; subst.
  destruct H as [H | H].
  - inversion H; subst. now rewrite String.eqb_refl.
  - destruct (String.eqb k0 w) eqn:E.
    + apply String.eqb_eq in E. subst k0. exfalso. apply Hnot.
      change w with (fst (w, c)). now apply in_map.
    + now apply IH.
Qed.

Lemma In_lookup w c t : lookup w t = Some c -> In (w, c) t.
Proof.
  induction t as [| [k0 c0] t IH]; simpl; intro H; [ discriminate |].
  destruct (String.eqb k0 w) eqn:E.
  - apply String.eqb_eq in E. inversion H; subst. now left.
  - right. now apply IH.
Qed.

(** A row [(w, c)] of a grouped count has [c] the number of [w]'s rows,
    which is at least one. *)
Lemma In_groupBy_count w c ws :
  In (w, c) (groupBy_count ws) -> c = occ w ws /\ 0 < c.
Proof.
  intro H.
  apply (lookup_In _ _ _ (NoDup_keys_groupBy_count ws)) in H.
  rewrite lookup_groupBy_count in H.
  pose proof (occ_nonneg w ws).
  destruct (occ w ws =? 0) eqn:E; [ discriminate |].
  apply Z.eqb_neq in E. inversion H; subst. lia.
Qed.

Lemma sum_bump k t : sum_Z (map snd (bump k t)) = sum_Z (map snd t) + 1.
Proof.
  induction t as [| [k0 c0] t IH]; simpl; [ reflexivity |].
  destruct (String.eqb k0 k); simpl; [ lia |].
  fold (sum_Z (map snd (bump k t))). fold (sum_Z (map snd t)). lia.
Qed.

Lemma sum_fold_bump ws : forall t,
  sum_Z (map snd (fold_left (fun t x => bump x t) ws t)) =
  sum_Z (map snd t) + Z.of_nat (List.length ws).
Proof.
  induction ws as [| x ws IH]; intro t; simpl List.length; simpl fold_left.
  - simpl. lia.
  - rewrite IH, sum_bump. lia.
Qed.

(** The counts of the groups add up to the number of rows. *)
Lemma sum_groupBy_count ws :
  sum_Z (map snd (groupBy_count ws)) = Z.of_nat (List.length ws).
Proof. unfold groupBy_count. rewrite sum_fold_bump. simpl. lia. Qed.

(** Python's [or 1] after the aggregate is "the sum, or 1 when it is 0". *)
Lemma py_or_agg_sum col : py_or (agg_sum col) 1 = or_one (sum_Z col).
Proof.
  unfold agg_sum, or_one.
  destruct col as [| c col]; [ reflexivity |].
  generalize (sum_Z (c :: col)). intros []; reflexivity.
Qed.

(** ** [orderBy] and [limit] *)

Lemma insert_row_perm {A} (le : A -> A -> bool) x l :
  Permutation (insert_row le x l) (x :: l).
Proof.
  induction l as [| y l IH]; simpl; [ reflexivity |].
  destruct (le x y); [ reflexivity |].
  rewrite IH. apply perm_swap.
Qed.

(** [orderBy] rearranges the rows and neither drops nor adds one. *)
Lemma orderBy_perm {A} (le : A -> A -> bool) l :
  Permutation (orderBy le l) l.
Proof.
  induction l as [| x l IH]; simpl; [ reflexivity |].
  rewrite insert_row_perm. now constructor.
Qed.

Lemma orderBy_In {A} (le : A -> A -> bool) l x :
  In x (orderBy le l) <-> In x l.
Proof.
  split; apply Permutation_in;
    [ apply orderBy_perm | symmetry; apply orderBy_perm ].
Qed.

Lemma orderBy_length {A} (le : A -> A -> bool) l :
  List.length (orderBy le l) = List.length l.
Proof. apply Permutation_length, orderBy_perm. Qed.

Lemma insert_row_HdRel {A} (le : A -> A -> bool) a x l :
  le a x = true ->
  HdRel (fun u v => le u v = true) a l ->
  HdRel (fun u v => le u v = true) a (insert_row le x l).
Proof.
  intros Hax H. destruct l as [| y l]; simpl.
  - now constructor.
  - destruct (le x y); constructor; [ exact Hax |].
    now inversion H.
Qed.

Lemma insert_row_Sorted {A} (le : A -> A -> bool) x l :
  (forall u v, le u v = false -> le v u = true) ->
  Sorted (fun u v => le u v = true) l ->
  Sorted (fun u v => le u v = true) (insert_row le x l).
Proof.
  intros Htot H. induction H as [| y l Hs IH Hd]; simpl.
  - repeat constructor.
  - destruct (le x y) eqn:E.
    + constructor; [ now constructor | now constructor ].
    + constructor; [ exact IH |].
      apply insert_row_HdRel; [ now apply Htot | exact Hd ].
Qed.

(** With a total order, the rows of [orderBy] come in that order. *)
Lemma orderBy_Sorted {A} (le : A -> A -> bool) l :
  (forall u v, le u v = false -> le v u = true) ->
  Sorted (fun u v => le u v = true) (orderBy le l).
Proof.
  intro Htot. induction l as [| x l IH]; simpl; [ constructor |].
  now apply insert_row_Sorted.
Qed.

Lemma limit_In {A} n (l : list A) x : In x (limit n l) -> In x l.
Proof.
  unfold limit. revert l.
  induction n as [| n IH]; intros [| y l]; simpl; try contradiction.
  intros [H | H]; [ now left | right; now apply IH ].
Qed.

Lemma limit_all {A} n (l : list A) :
  (List.length l <= n)%nat -> limit n l = l.
Proof. unfold limit. apply firstn_all2. Qed.

End FrameFacts.

(** ** The operations on small inputs *)

Module Samples.
Import Col Frame.

Example split_ws_edges :
  split_ws (string_of_list_ascii
              [ascii_of_N 9; "a"%char; " "%char; ascii_of_N 10; "b"%char;
               ascii_of_N 13])
  = [""; "a"; "b"; ""].
Proof. reflexivity. Qed.

Example split_ws_empty : split_ws "" = [""].
Proof. reflexivity. Qed.

Example trim_spaces : trim "  a b  " = "a b".
Proof. reflexivity. Qed.

(** A tab, an apostrophe, capitals, a link, a letter with an accent and a
    character beyond the basic plane. *)
Example normalize_messy_comment :
  normalize english_stop_words
    (Some (9%N :: codepoints "It's GREAT!! see https://www.x.com caf"
             ++ [233%N; 32%N; 128512%N])%list)
  = ["great"; "com"; "caf"].
Proof. reflexivity. Qed.

Example groupBy_count_sample :
  groupBy_count ["a"; "b"; "a"] = [("a", 2); ("b", 1)].
Proof. reflexivity. Qed.

Example py_or_samples :
  py_or None 1 = 1 /\ py_or (Some 0) 1 = 1 /\ py_or (Some 7) 1 = 7.
Proof. repeat split. Qed.

Example orderBy_count_desc_sample :
  orderBy count_desc [("a", 1); ("b", 3); ("c", 1); ("d", 3)]
  = [("b", 3); ("d", 3); ("a", 1); ("c", 1)].
Proof. reflexivity. Qed.

Example word_counts_great :
  word_counts (clean_words_df english_stop_words [great_comment])
  = [("great", 5); ("bad", 1)].
Proof. reflexivity. Qed.

End Samples.

(* ================================================================== *)
(** * Facts about the aggregated tables *)
(* ================================================================== *)

Module TableFacts.
Import Col Frame FrameFacts.

(** [clean_words_df.count()] is the sum of the [context_count] column. *)
Lemma total_tokens_is_sum ws :
  total_tokens ws = sum_Z (map snd (word_counts ws)).
Proof.
  unfold total_tokens, word_counts. now rewrite sum_groupBy_count.
Qed.

Lemma total_pos_or_one lex ws :
  total_pos lex ws = or_one (sum_Z (map snd (pos_counts lex ws))).
Proof. unfold total_pos. apply py_or_agg_sum. Qed.

Lemma total_neg_or_one lex ws :
  total_neg lex ws = or_one (sum_Z (map snd (neg_counts lex ws))).
Proof. unfold total_neg. apply py_or_agg_sum. Qed.

Lemma or_one_ge_1 s : 0 <= s -> 1 <= or_one s.
Proof.
  unfold or_one. intro H. destruct (s =? 0) eqn:E; [ lia |].
  apply Z.eqb_neq in E. lia.
Qed.

Lemma total_pos_ge_1 lex ws : 1 <= total_pos lex ws.
Proof.
  rewrite total_pos_or_one. apply or_one_ge_1.
  unfold pos_counts. rewrite sum_groupBy_count. lia.
Qed.

Lemma total_neg_ge_1 lex ws : 1 <= total_neg lex ws.
Proof.
  rewrite total_neg_or_one. apply or_one_ge_1.
  unfold neg_counts. rewrite sum_groupBy_count. lia.
Qed.

(** The count a left join finds in the table of a lexicon: all the rows of
    the word when the word is in the lexicon, null otherwise. *)
Lemma lookup_lexicon_counts lex w ws :
  lookup w (groupBy_count (filter (fun x => isin x lex) ws)) =
  if isin w lex && negb (occ w ws =? 0) then Some (occ w ws) else None.
Proof.
  rewrite lookup_groupBy_count, occ_filter.
  destruct (isin w lex); simpl; [| reflexivity ].
  destruct (occ w ws =? 0); reflexivity.
Qed.

Lemma filled_lexicon_count_bounds lex w ws :
  0 <= na_fill0 (lookup w (groupBy_count (filter (fun x => isin x lex) ws)))
    <= occ w ws.
Proof.
  rewrite lookup_lexicon_counts. pose proof (occ_nonneg w ws).
  destruct (isin w lex && negb (occ w ws =? 0)); simpl; lia.
Qed.

Lemma In_word_counts w c ws :
  In (w, c) (word_counts ws) -> c = occ w ws /\ 0 < c /\ In w ws.
Proof.
  intro H. apply In_groupBy_count in H. destruct H as [-> Hc].
  repeat split; [ exact Hc | now apply occ_pos_iff ].
Qed.

Lemma word_counts_has w ws :
  In w ws -> In (w, occ w ws) (word_counts ws).
Proof.
  intro H. apply In_lookup. unfold word_counts.
  rewrite lookup_groupBy_count.
  apply occ_pos_iff in H.
  destruct (occ w ws =? 0) eqn:E; [ apply Z.eqb_eq in E; lia | reflexivity ].
Qed.

Lemma In_lexicon_counts lex w k ws :
  In (w, k) (groupBy_count (filter (fun x => isin x lex) ws)) ->
  k = occ w ws /\ In w ws /\ isin w lex = true.
Proof.
  intro H. apply In_groupBy_count in H. destruct H as [-> Hk].
  rewrite occ_filter in *.
  destruct (isin w lex); [| lia ].
  repeat split. now apply occ_pos_iff.
Qed.

(** The rows of [pmi_df] are the rows of [word_counts], completed. *)
Lemma In_pmi_df {D} {ops : DoubleOps D} pl nl ws (r : PmiRow D) :
  In r (pmi_df pl nl ws) ->
  exists w c,
    In (w, c) (word_counts ws) /\
    r = pmi_row (total_tokens ws) (total_pos pl ws) (total_neg nl ws) w c
                (lookup w (pos_counts pl ws)) (lookup w (neg_counts nl ws)).
Proof.
  unfold pmi_df. intro H. apply in_map_iff in H.
  destruct H as [[w c] [E H]]. exists w, c. split; [ exact H | now symmetry ].
Qed.

Lemma total_tokens_pos w ws : In w ws -> 0 < total_tokens ws.
Proof.
  unfold total_tokens. destruct ws; [ contradiction | simpl List.length; lia ].
Qed.

End TableFacts.

(* ================================================================== *)
(** * The claims *)
(* ================================================================== *)

Import Col Frame FrameFacts TableFacts.

(** C1.  Every row of [pmi_df] carries the score of the specification's
    formula: with [c], [p], [n] the counts of the row's word in the three
    tables (0 where the word is absent from a lexicon table), [N] the sum of
    all context counts, [P] and [Q] the sums of the lexicon tables, each 1
    when the sum is 0, and [alpha = 1], [sentiment_score] is
    [log2(((p+alpha)/N)/((c/N)*(P/N))) - log2(((n+alpha)/N)/((c/N)*(Q/N)))].
    It holds whatever the arithmetic of the double columns is. *)
Theorem sentiment_score_is_spec_formula :
  forall (D : Type) (ops : DoubleOps D) (sw : list string) (df : dataframe)
         (r : PmiRow D),
  let ws := clean_words_df sw df in
  let context := word_counts ws in
  let pos := pos_counts positive_words ws in
  let neg := neg_counts negative_words ws in
  In r (pmi_df positive_words negative_words ws) ->
  alpha = 1 /\
  lookup (word r) context = Some (context_count r) /\
  sentiment_score r =
    spec_score (context_count r)
               (na_fill0 (lookup (word r) pos))
               (na_fill0 (lookup (word r) neg))
               (sum_Z (map snd context))
               (or_one (sum_Z (map snd pos)))
               (or_one (sum_Z (map snd neg))).
Proof.
  intros D ops sw df r ws context pos neg H.
  apply In_pmi_df in H. destruct H as (w & c & Hin & ->).
  split; [ reflexivity |]. split.
  - simpl. apply lookup_In; [ apply NoDup_keys_groupBy_count | exact Hin ].
  - subst context pos neg.
    rewrite <- total_tokens_is_sum, <- total_pos_or_one, <- total_neg_or_one.
    reflexivity.
Qed.

Lemma sentiment_score_is_spec_formula_witness :
  let ws := clean_words_df english_stop_words [great_comment] in
  let r : PmiRow R := pmi_row 6 5 1 "great" 5 (Some 5) None in
  In r (pmi_df positive_words negative_words ws) /\
  sentiment_score r = spec_score 5 5 0 6 5 1.
Proof.
  intros ws r.
  assert (In r (pmi_df positive_words negative_words ws)) as Hin.
  { apply in_map_iff. exists ("great", 5). split; [ reflexivity |].
    vm_compute. left. reflexivity. }
  split; [ exact Hin |].
  exact (proj2 (proj2
    (sentiment_score_is_spec_formula R RealOps english_stop_words
       [great_comment] r Hin))).
Defined.

(** C4.  In every row of the joined table [context_count] is at least the
    larger of [pos_count] and [neg_count], and every row of [pos_counts] or
    [neg_counts] has its word in [word_counts] with a count at least as
    large. *)
Theorem context_count_bounds_lexicon_counts :
  forall (D : Type) (ops : DoubleOps D) (sw : list string) (df : dataframe),
  let ws := clean_words_df sw df in
  (forall r : PmiRow D,
      In r (pmi_df positive_words negative_words ws) ->
      pos_count r = na_fill0 (lookup (word r) (pos_counts positive_words ws))
      /\ neg_count r
         = na_fill0 (lookup (word r) (neg_counts negative_words ws))
      /\ Z.max (pos_count r) (neg_count r) <= context_count r) /\
  (forall w k,
      In (w, k) (pos_counts positive_words ws) \/
      In (w, k) (neg_counts negative_words ws) ->
      exists c, In (w, c) (word_counts ws) /\ k <= c).
Proof.
  intros D ops sw df ws. split.
  - intros r H. apply In_pmi_df in H. destruct H as (w & c & Hin & ->).
    simpl. apply In_word_counts in Hin. destruct Hin as (-> & _ & _).
    pose proof (filled_lexicon_count_bounds positive_words w ws).
    pose proof (filled_lexicon_count_bounds negative_words w ws).
    unfold pos_counts, neg_counts. repeat split; lia.
  - intros w k [H | H]; apply In_lexicon_counts in H;
      destruct H as (-> & Hw & _);
      exists (occ w ws); (split; [ now apply word_counts_has | lia ]).
Qed.

Lemma context_count_bounds_lexicon_counts_witness :
  let ws := clean_words_df english_stop_words [great_comment] in
  exists c, In ("bad", c) (word_counts ws) /\ 1 <= c.
Proof.
  intro ws.
  apply (proj2 (context_count_bounds_lexicon_counts R RealOps
                  english_stop_words [great_comment]) "bad" 1).
  right. vm_compute. left. reflexivity.
Defined.

(** ** The double columns over the real numbers *)

Module RealFacts.

Lemma ln2_pos : (0 < ln 2)%R.
Proof. rewrite <- ln_1. apply ln_increasing; lra. Qed.

(** On a positive argument [log2R] is the logarithm: 2 to its power gives
    the argument back. *)
Lemma Rpower_2_log2R x : (0 < x)%R -> Rpower 2 (log2R x) = x.
Proof.
  intro H. unfold Rpower, log2R.
  replace (ln x / ln 2 * ln 2)%R with (ln x).
  - now apply exp_ln.
  - field. pose proof ln2_pos. lra.
Qed.

Lemma IZR_pos z : 0 < z -> (0 < IZR z)%R.
Proof. intro H. now apply IZR_lt. Qed.

Lemma ratio_pos a b : (0 < a)%R -> (0 < b)%R -> (0 < a / b)%R.
Proof. intros. now apply Rdiv_lt_0_compat. Qed.

(** The quotient under a logarithm of [pmi_row]: positive as soon as the
    counts are. *)
Lemma pmi_argument_pos k c T N :
  0 < k -> 0 < c -> 0 < T -> 0 < N ->
  (0 < IZR k / IZR N / (IZR c / IZR N * (IZR T / IZR N)))%R.
Proof.
  intros Hk Hc HT HN.
  apply IZR_pos in Hk, Hc, HT, HN.
  apply ratio_pos; [ now apply ratio_pos |].
  apply Rmult_lt_0_compat; now apply ratio_pos.
Qed.

(** The branch of [pmi_row] whose lexicon count is 0. *)
Lemma smoothed_branch c T N :
  0 < c -> 0 < T -> 0 < N ->
  let x := (IZR alpha / IZR N / (IZR c / IZR N * (IZR T / IZR N)))%R in
  (IZR c / IZR N * (IZR T / IZR N))%R <> 0%R /\
  (0 < x)%R /\
  Rpower 2 (log2R x) = x.
Proof.
  intros Hc HT HN x.
  assert (0 < x)%R as Hx by (apply pmi_argument_pos; unfold alpha; lia).
  split; [| split; [ exact Hx | now apply Rpower_2_log2R ] ].
  apply IZR_pos in Hc, HT, HN.
  apply Rgt_not_eq, Rlt_gt, Rmult_lt_0_compat; now apply ratio_pos.
Qed.

End RealFacts.

Import RealFacts.

(** C5.  No division of the scorer has a zero divisor.  The lexicon totals
    are at least 1 ([or 1]); every row of [word_counts], the table the
    divisions are computed from, has a positive count, so no word with
    [context_count = 0] is scored; and in every row of [pmi_df] the divisors
    [total_tokens] and [p_w * p_pos], [p_w * p_neg] are not zero. *)
Theorem scoring_divisors_nonzero :
  forall (sw : list string) (df : dataframe),
  let ws := clean_words_df sw df in
  1 <= total_pos positive_words ws /\
  1 <= total_neg negative_words ws /\
  (forall w c, In (w, c) (word_counts ws) -> 0 < c) /\
  (forall r : PmiRow R,
      In r (pmi_df positive_words negative_words ws) ->
      0 < context_count r /\
      0 < total_tokens ws /\
      IZR (total_tokens ws) <> 0%R /\
      (p_w r * p_pos r)%R <> 0%R /\
      (p_w r * p_neg r)%R <> 0%R).
Proof.
  intros sw df ws.
  pose proof (total_pos_ge_1 positive_words ws) as HP.
  pose proof (total_neg_ge_1 negative_words ws) as HQ.
  repeat split; try assumption.
  - intros w c H. now apply In_word_counts in H.
  - apply In_pmi_df in H. destruct H as (w & c & Hin & ->).
    now apply In_word_counts in Hin.
  - apply In_pmi_df in H. destruct H as (w & c & Hin & ->).
    apply In_word_counts in Hin. destruct Hin as (_ & _ & Hw).
    now apply total_tokens_pos in Hw.
  - apply In_pmi_df in H. destruct H as (w & c & Hin & ->).
    apply In_word_counts in Hin. destruct Hin as (_ & _ & Hw).
    apply total_tokens_pos, IZR_pos in Hw. lra.
  - apply In_pmi_df in H. destruct H as (w & c & Hin & ->).
    apply In_word_counts in Hin. destruct Hin as (_ & Hc & Hw).
    apply total_tokens_pos, IZR_pos in Hw. apply IZR_pos in Hc.
    assert (0 < IZR (total_pos positive_words ws))%R by (apply IZR_pos; lia).
    simpl. apply Rgt_not_eq, Rlt_gt.
    apply Rmult_lt_0_compat; now apply ratio_pos.
  - apply In_pmi_df in H. destruct H as (w & c & Hin & ->).
    apply In_word_counts in Hin. destruct Hin as (_ & Hc & Hw).
    apply total_tokens_pos, IZR_pos in Hw. apply IZR_pos in Hc.
    assert (0 < IZR (total_neg negative_words ws))%R by (apply IZR_pos; lia).
    simpl. apply Rgt_not_eq, Rlt_gt.
    apply Rmult_lt_0_compat; now apply ratio_pos.
Qed.

Lemma scoring_divisors_nonzero_witness :
  let ws := clean_words_df english_stop_words [great_comment] in
  0 < 5 /\ 0 < total_tokens ws /\ IZR (total_tokens ws) <> 0%R.
Proof.
  intro ws.
  pose proof (proj2 (proj2 (proj2
    (scoring_divisors_nonzero english_stop_words [great_comment])))
    (pmi_row 6 5 1 "great" 5 (Some 5) None)) as H.
  simpl context_count in H.
  assert (In (pmi_row (D := R) 6 5 1 "great" 5 (Some 5) None)
             (pmi_df positive_words negative_words ws)) as Hin.
  { apply in_map_iff. exists ("great", 5). split; [ reflexivity |].
    vm_compute. left. reflexivity. }
  destruct (H Hin) as (H1 & H2 & H3 & _).
  repeat split; assumption.
Defined.

(** C8.  In a row of [pmi_df] (every row has [context_count > 0]) with
    [neg_count = 0], [pmi_negative] is [log2((alpha/N)/(p_w*p_neg))] and a
    real number: no divisor is zero and the argument of the logarithm is
    strictly positive, because the smoothed numerator [n + alpha] is; so 2
    to the power [pmi_negative] is that argument.  The same holds of
    [pmi_positive] when [pos_count = 0]. *)
Theorem smoothed_pmi_is_a_real_logarithm :
  forall (sw : list string) (df : dataframe) (r : PmiRow R),
  let ws := clean_words_df sw df in
  let N := IZR (total_tokens ws) in
  In r (pmi_df positive_words negative_words ws) ->
  0 < context_count r /\
  N <> 0%R /\
  p_w r = (IZR (context_count r) / N)%R /\
  p_pos r = (IZR (total_pos positive_words ws) / N)%R /\
  p_neg r = (IZR (total_neg negative_words ws) / N)%R /\
  (neg_count r = 0 ->
     let x := (IZR alpha / N / (p_w r * p_neg r))%R in
     (p_w r * p_neg r)%R <> 0%R /\ (0 < x)%R /\
     pmi_negative r = log2R x /\ Rpower 2 (pmi_negative r) = x) /\
  (pos_count r = 0 ->
     let x := (IZR alpha / N / (p_w r * p_pos r))%R in
     (p_w r * p_pos r)%R <> 0%R /\ (0 < x)%R /\
     pmi_positive r = log2R x /\ Rpower 2 (pmi_positive r) = x).
Proof.
  intros sw df r ws N H.
  apply In_pmi_df in H. destruct H as (w & c & Hin & ->).
  apply In_word_counts in Hin. destruct Hin as (_ & Hc & Hw).
  pose proof (total_tokens_pos _ _ Hw) as HN.
  pose proof (total_pos_ge_1 positive_words ws) as HP.
  pose proof (total_neg_ge_1 negative_words ws) as HQ.
  assert (0 < N)%R as HNr by (now apply IZR_pos).
  simpl.
  split; [ exact Hc |]. split; [ lra |].
  split; [ reflexivity |]. split; [ reflexivity |]. split; [ reflexivity |].
  split; intros ->; simpl Z.add.
  - destruct (smoothed_branch c (total_neg negative_words ws)
                (total_tokens ws)) as (Hd & Hx & Hp); try lia.
    repeat split; assumption || reflexivity.
  - destruct (smoothed_branch c (total_pos positive_words ws)
                (total_tokens ws)) as (Hd & Hx & Hp); try lia.
    repeat split; assumption || reflexivity.
Qed.

Lemma smoothed_pmi_is_a_real_logarithm_witness :
  let r : PmiRow R := pmi_row 6 5 1 "great" 5 (Some 5) None in
  let x := (IZR alpha / 6 / (p_w r * p_neg r))%R in
  (0 < x)%R /\ pmi_negative r = log2R x /\ Rpower 2 (pmi_negative r) = x.
Proof.
  intros r x.
  assert (In r (pmi_df positive_words negative_words
                  (clean_words_df english_stop_words [great_comment])))
    as Hin.
  { apply in_map_iff. exists ("great", 5). split; [ reflexivity |].
    vm_compute. left. reflexivity. }
  destruct (smoothed_pmi_is_a_real_logarithm english_stop_words
              [great_comment] r Hin) as (_ & _ & _ & _ & _ & Hneg & _).
  destruct (Hneg eq_refl) as (_ & Hx & Hlog & Hpow).
  repeat split; assumption.
Defined.

(** ** Swapping the lexicons *)

Lemma score_of_map_negated {X : Type} (f g : X -> PmiRow R) t l :
  (forall x, word (g x) = word (f x)) ->
  (forall x, sentiment_score (g x) = (- sentiment_score (f x))%R) ->
  score_of t (map g l) = option_map Ropp (score_of t (map f l)).
Proof.
  intros Hw Hs. unfold score_of.
  induction l as [| x l IH]; simpl; [ reflexivity |].
  rewrite Hw. destruct (String.eqb (word (f x)) t); simpl.
  - now rewrite Hs.
  - exact IH.
Qed.

(** C3.  For every corpus and every token [t], the score of [t] computed
    with the two lexicons exchanged is the negation of its score with the
    lexicons in place (and [t] has a score in the one table exactly when it
    has one in the other); this is about [pmi_df], before any ranking. *)
Theorem swapped_lexicons_negate_score :
  forall (sw pos_lexicon neg_lexicon : list string) (df : dataframe)
         (t : string),
  let ws := clean_words_df sw df in
  score_of t (pmi_df (D := R) neg_lexicon pos_lexicon ws) =
  option_map Ropp (score_of t (pmi_df (D := R) pos_lexicon neg_lexicon ws)).
Proof.
  intros sw pl nl df t ws. unfold pmi_df.
  apply score_of_map_negated; intro x; simpl; [ reflexivity |].
  unfold total_pos, total_neg, pos_counts, neg_counts. lra.
Qed.

(** ** The frequency floor *)

Lemma In_pmi_filtered {D} {ops : DoubleOps D} pl nl ws (r : PmiRow D) :
  In r (pmi_filtered pl nl ws) <->
  In r (pmi_df pl nl ws) /\ 5 <= context_count r /\
  isin (word r) ambiguous_words = false.
Proof.
  unfold pmi_filtered. rewrite !filter_In, Z.leb_le, negb_true_iff. tauto.
Qed.

Lemma In_top_pos {D} {ops : DoubleOps D} pl nl ws row :
  In row (top_pos (D := D) pl nl ws) ->
  exists r, In r (pmi_filtered pl nl ws) /\ row = select3 r.
Proof.
  unfold top_pos. intro H. apply limit_In, in_map_iff in H.
  destruct H as (r & E & H). exists r.
  split; [ now apply orderBy_In in H | now symmetry ].
Qed.

Lemma In_top_neg {D} {ops : DoubleOps D} pl nl ws row :
  In row (top_neg (D := D) pl nl ws) ->
  exists r, In r (pmi_filtered pl nl ws) /\ row = select3 r.
Proof.
  unfold top_neg. intro H. apply limit_In, in_map_iff in H.
  destruct H as (r & E & H). exists r.
  split; [ now apply orderBy_In in H | now symmetry ].
Qed.

Lemma row_count_is_table_count {D} {ops : DoubleOps D} pl nl ws
  (r : PmiRow D) :
  In r (pmi_df pl nl ws) ->
  lookup (word r) (word_counts ws) = Some (context_count r).
Proof.
  intro H. apply In_pmi_df in H. destruct H as (w & c & Hin & ->). simpl.
  apply lookup_In; [ apply NoDup_keys_groupBy_count | exact Hin ].
Qed.

Lemma pmi_df_has {D} {ops : DoubleOps D} pl nl ws t c :
  lookup t (word_counts ws) = Some c ->
  exists r : PmiRow D,
    In r (pmi_df pl nl ws) /\ word r = t /\ context_count r = c.
Proof.
  intro H. apply In_lookup in H.
  eexists. split; [ unfold pmi_df; apply in_map_iff; exists (t, c);
                    split; [ reflexivity | exact H ] |].
  split; reflexivity.
Qed.

Lemma ranked_all_when_short {D} {ops : DoubleOps D} le (l : list (PmiRow D))
  r :
  (List.length l <= 10)%nat -> In r l ->
  In (word r) (words_of (limit 10 (map select3 (orderBy le l)))).
Proof.
  intros Hlen Hin. rewrite limit_all.
  - unfold words_of. rewrite map_map. simpl.
    apply in_map, orderBy_In, Hin.
  - now rewrite length_map, orderBy_length.
Qed.

(** C6.  The frequency floor is 5, inclusive.  Every row of the two ranked
    tables has [context_count >= 5]; a token whose count is 4 is in neither
    table; a token whose count is 5 and that is not an ambiguous word is
    among the rows that are ranked, and is in both tables when no more than
    ten rows are ranked. *)
Theorem frequency_floor_is_five :
  forall (D : Type) (ops : DoubleOps D) (sw : list string) (df : dataframe),
  let ws := clean_words_df sw df in
  let res := run_pmi_reddit (D := D) sw df in
  (forall row,
      In row (reddit_pmi_positive res) \/ In row (reddit_pmi_negative res) ->
      5 <= snd (fst row)) /\
  (forall t,
      lookup t (word_counts ws) = Some 4 ->
      ~ In t (words_of (reddit_pmi_positive res)) /\
      ~ In t (words_of (reddit_pmi_negative res))) /\
  (forall t,
      lookup t (word_counts ws) = Some 5 ->
      isin t ambiguous_words = false ->
      let ranked := pmi_filtered (D := D) positive_words negative_words ws in
      In t (map word ranked) /\
      ((List.length ranked <= 10)%nat ->
       In t (words_of (reddit_pmi_positive res)) /\
       In t (words_of (reddit_pmi_negative res)))).
Proof.
  intros D ops sw df ws res.
  assert (forall row,
            In row (reddit_pmi_positive res) \/
            In row (reddit_pmi_negative res) ->
            exists r, In r (pmi_filtered positive_words negative_words ws)
                      /\ row = select3 r) as Hrow.
  { intros row [H | H]; [ now apply In_top_pos | now apply In_top_neg ]. }
  assert (forall t row,
            lookup t (word_counts ws) = Some 4 ->
            In row (reddit_pmi_positive res) \/
            In row (reddit_pmi_negative res) ->
            fst (fst row) <> t) as Hfour.
  { intros t row Ht H E. apply Hrow in H. destruct H as (r & Hr & ->).
    apply In_pmi_filtered in Hr. destruct Hr as (Hr & Hc & _).
    apply row_count_is_table_count in Hr. simpl in E. rewrite E in Hr.
    rewrite Ht in Hr. inversion Hr. lia. }
  split; [| split ].
  - intros row H. apply Hrow in H. destruct H as (r & Hr & ->).
    apply In_pmi_filtered in Hr. simpl. tauto.
  - intros t Ht.
    split; intro H; apply in_map_iff in H; destruct H as (row & E & H);
      eapply Hfour; eauto.
  - intros t Ht Hamb ranked.
    destruct (pmi_df_has (D := D) positive_words negative_words ws t 5 Ht)
      as (r & Hin & Hw & Hc).
    assert (In r ranked) as Hr.
    { apply In_pmi_filtered. rewrite Hw, Hc. repeat split; [ exact Hin | lia | exact Hamb ]. }
    split; [ rewrite <- Hw; now apply in_map |].
    intro Hlen. rewrite <- Hw.
    split; now apply ranked_all_when_short.
Qed.

Lemma frequency_floor_is_five_witness :
  let ws := clean_words_df english_stop_words [great_comment] in
  In "great"
     (map word (pmi_filtered (D := R) positive_words negative_words ws)).
Proof.
  intro ws.
  assert (lookup "great" (word_counts ws) = Some 5) as Hfive
    by (vm_compute; reflexivity).
  assert (isin "great" ambiguous_words = false) as Hamb
    by (vm_compute; reflexivity).
  exact (proj1 (proj2 (proj2 (frequency_floor_is_five R RealOps
                                english_stop_words [great_comment]))
                  "great" Hfive Hamb)).
Defined.

(** ** Rows the cleaning step drops *)

Lemma df_clean_app (df1 df2 : dataframe) :
  df_clean (df1 ++ df2)%list = (df_clean df1 ++ df_clean df2)%list.
Proof. unfold df_clean. now rewrite !filter_app. Qed.

Lemma df_clean_dropped c :
  c = None \/ (exists s, c = Some s /\ length_u s <= 20) ->
  df_clean [c] = [].
Proof.
  intros [-> | (s & -> & H)]; unfold df_clean; simpl; [ reflexivity |].
  apply Z.ltb_ge in H. now rewrite H.
Qed.

Lemma df_clean_kept s : 20 < length_u s -> df_clean [Some s] = [Some s].
Proof.
  intro H. unfold df_clean. simpl. apply Z.ltb_lt in H. now rewrite H.
Qed.

(** C7.  On a corpus without documents, or of which no document survives
    the cleaning, nothing fails: the three tables are empty, the token
    total is 0 and the two lexicon totals are the default 1. *)
Theorem empty_corpus_gives_empty_tables :
  forall (D : Type) (ops : DoubleOps D) (sw : list string) (df : dataframe),
  df = [] \/ df_clean df = [] ->
  let ws := clean_words_df sw df in
  let res := run_pmi_reddit (D := D) sw df in
  reddit_pmi_positive res = [] /\
  reddit_pmi_negative res = [] /\
  reddit_word_freq res = [] /\
  total_tokens ws = 0 /\
  total_pos positive_words ws = 1 /\
  total_neg negative_words ws = 1.
Proof.
  intros D ops sw df H ws res.
  assert (ws = []) as E.
  { subst ws. unfold clean_words_df.
    destruct H as [-> | ->]; reflexivity. }
  subst res. unfold run_pmi_reddit. fold ws. rewrite E.
  repeat split; reflexivity.
Qed.

Lemma empty_corpus_gives_empty_tables_witness :
  let df := [None; Some (codepoints "far too short")] in
  reddit_pmi_positive (run_pmi_reddit (D := R) english_stop_words df) = [] /\
  reddit_pmi_negative (run_pmi_reddit (D := R) english_stop_words df) = [] /\
  reddit_word_freq (run_pmi_reddit (D := R) english_stop_words df) = [].
Proof.
  intro df.
  assert (df = [] \/ df_clean df = []) as H by (right; reflexivity).
  destruct (empty_corpus_gives_empty_tables R RealOps english_stop_words
              df H) as (H1 & H2 & H3 & _).
  repeat split; assumption.
Defined.

(** C10.  A row whose comment is null or has at most 20 characters leaves
    no trace: the corpus with the row and the corpus without it give the
    same [clean_words_df], hence the same frequency tables and the same
    three output tables.  The bound is strict: a comment of exactly 20
    characters is dropped, and any longer comment is kept. *)
Theorem short_or_null_comment_contributes_nothing :
  forall (D : Type) (ops : DoubleOps D) (sw : list string)
         (df1 df2 : dataframe) (c : option ustring),
  c = None \/ (exists s, c = Some s /\ length_u s <= 20) ->
  let df := (df1 ++ c :: df2)%list in
  let df' := (df1 ++ df2)%list in
  clean_words_df sw df = clean_words_df sw df' /\
  word_counts (clean_words_df sw df) = word_counts (clean_words_df sw df') /\
  pos_counts positive_words (clean_words_df sw df)
  = pos_counts positive_words (clean_words_df sw df') /\
  neg_counts negative_words (clean_words_df sw df)
  = neg_counts negative_words (clean_words_df sw df') /\
  run_pmi_reddit (D := D) sw df = run_pmi_reddit sw df' /\
  (forall s, length_u s = 20 -> df_clean [Some s] = []) /\
  (forall s, 20 < length_u s -> df_clean [Some s] = [Some s]).
Proof.
  intros D ops sw df1 df2 c H df df'.
  assert (clean_words_df sw df = clean_words_df sw df') as E.
  { subst df df'. unfold clean_words_df.
    change (c :: df2) with ([c] ++ df2)%list.
    rewrite !df_clean_app, (df_clean_dropped c H). reflexivity. }
  unfold run_pmi_reddit. rewrite E.
  repeat split; try reflexivity.
  - intros s Hs. apply df_clean_dropped. right. exists s. split; [ reflexivity | lia ].
  - apply df_clean_kept.
Qed.

Lemma short_or_null_comment_contributes_nothing_witness :
  let twenty := Some (codepoints "great great fun good") in
  clean_words_df english_stop_words [great_comment; twenty]
  = clean_words_df english_stop_words [great_comment].
Proof.
  intro twenty.
  refine (proj1 (short_or_null_comment_contributes_nothing R RealOps
                   english_stop_words [great_comment] [] twenty _)).
  right. eexists. split; [ reflexivity | vm_compute; discriminate ].
Defined.

(** ** The two-document scenario *)

Lemma tokens_good_game_good :
  tokens (Some (codepoints "good game good")) = Some ["good"; "game"; "good"].
Proof. reflexivity. Qed.

Lemma tokens_bad_game_bad :
  tokens (Some (codepoints "bad game bad")) = Some ["bad"; "game"; "bad"].
Proof. reflexivity. Qed.

Lemma game_is_noise : keep_word "game" = false.
Proof. reflexivity. Qed.

(** With "good" and "bad" outside the stop words, each document gives its
    seed word twice and nothing else: "game" is a noise word. *)
Lemma normalize_good_bad sw :
  isin "good" (map lower sw) = false ->
  isin "bad" (map lower sw) = false ->
  flat_map (normalize sw) good_bad_corpus = ["good"; "good"; "bad"; "bad"].
Proof.
  intros Hg Hb. unfold good_bad_corpus, flat_map, normalize, clean_tokens.
  rewrite tokens_good_game_good, tokens_bad_game_bad.
  unfold option_map, explode, remove_stop_words.
  change "good" with (lower "good") in Hg.
  change "bad" with (lower "bad") in Hb.
  cbn [filter]. rewrite Hg, Hb. cbn [negb app].
  destruct (negb (isin (lower "game") (map lower sw))); reflexivity.
Qed.

(** C2, as stated, fails: the normalizer does not emit six tokens on the
    scenario's corpus, and the token total is not 6, whether the two
    comments are given to the normalizer directly or go through the whole
    script. *)
Lemma scenario_does_not_emit_six_tokens :
  let six := ["good"; "game"; "good"; "bad"; "game"; "bad"] in
  let emitted := flat_map (normalize english_stop_words) good_bad_corpus in
  emitted <> six /\
  total_tokens emitted <> 6 /\
  clean_words_df english_stop_words good_bad_corpus <> six /\
  total_tokens (clean_words_df english_stop_words good_bad_corpus) <> 6.
Proof.
  vm_compute. repeat split; discriminate.
Qed.

(** C2, amended.  On the corpus ["good game good", "bad game bad"], with
    "good" and "bad" outside the stop words, the normalizer emits the four
    tokens good, good, bad, bad ("game" is in [custom_noise_words]), so
    [N = 4] when the two comments reach the aggregator; in the script both
    comments (14 and 12 characters) are dropped by the row filter, so no
    token is emitted at all.  Either way no count reaches 5 and both ranked
    tables are empty. *)
Theorem good_bad_scenario :
  forall (D : Type) (ops : DoubleOps D) (sw : list string),
  isin "good" (map lower sw) = false ->
  isin "bad" (map lower sw) = false ->
  let emitted := flat_map (normalize sw) good_bad_corpus in
  emitted = ["good"; "good"; "bad"; "bad"] /\
  total_tokens emitted = 4 /\
  word_counts emitted = [("good", 2); ("bad", 2)] /\
  top_pos (D := D) positive_words negative_words emitted = [] /\
  top_neg (D := D) positive_words negative_words emitted = [] /\
  clean_words_df sw good_bad_corpus = [] /\
  reddit_pmi_positive (run_pmi_reddit (D := D) sw good_bad_corpus) = [] /\
  reddit_pmi_negative (run_pmi_reddit (D := D) sw good_bad_corpus) = [].
Proof.
  intros D ops sw Hg Hb emitted.
  assert (emitted = ["good"; "good"; "bad"; "bad"]) as E
    by (now apply normalize_good_bad).
  rewrite E. repeat split; reflexivity.
Qed.

Lemma good_bad_scenario_witness :
  flat_map (normalize english_stop_words) good_bad_corpus
  = ["good"; "good"; "bad"; "bad"] /\
  top_pos (D := R) positive_words negative_words
          (flat_map (normalize english_stop_words) good_bad_corpus) = [].
Proof.
  assert (isin "good" (map lower english_stop_words) = false) as Hg
    by (vm_compute; reflexivity).
  assert (isin "bad" (map lower english_stop_words) = false) as Hb
    by (vm_compute; reflexivity).
  destruct (good_bad_scenario R RealOps english_stop_words Hg Hb)
    as (H1 & _ & _ & H2 & _).
  split; assumption.
Defined.

(* ================================================================== *)
(** * Further properties of the pipeline *)
(* ================================================================== *)

Module CountFacts.
Import Col Frame FrameFacts TableFacts.

(** The counts of the groups whose word passes [f] add up to the number of
    rows that pass [f]. *)
Lemma selected_sum_bump (f : string -> bool) x t :
  sum_Z (map (fun wc => if f (fst wc) then snd wc else 0) (bump x t)) =
  sum_Z (map (fun wc => if f (fst wc) then snd wc else 0) t)
  + (if f x then 1 else 0).
Proof.
  induction t as [| [k c] t IH]; simpl.
  - destruct (f x); lia.
  - destruct (String.eqb k x) eqn:E; simpl.
    + apply String.eqb_eq in E. subst k. destruct (f x); lia.
    + fold (sum_Z (map (fun wc => if f (fst wc) then snd wc else 0)
                       (bump x t))).
      rewrite IH.
      fold (sum_Z (map (fun wc => if f (fst wc) then snd wc else 0) t)).
      lia.
Qed.

Lemma selected_sum_fold (f : string -> bool) ws : forall t,
  sum_Z (map (fun wc => if f (fst wc) then snd wc else 0)
             (fold_left (fun t x => bump x t) ws t)) =
  sum_Z (map (fun wc => if f (fst wc) then snd wc else 0) t)
  + Z.of_nat (List.length (filter f ws)).
Proof.
  induction ws as [| x ws IH]; intro t; simpl fold_left; simpl filter.
  - simpl. lia.
  - rewrite IH, selected_sum_bump.
    destruct (f x); simpl List.length; lia.
Qed.

Lemma selected_sum_groupBy_count (f : string -> bool) ws :
  sum_Z (map (fun wc => if f (fst wc) then snd wc else 0) (groupBy_count ws))
  = Z.of_nat (List.length (filter f ws)).
Proof. unfold groupBy_count. rewrite selected_sum_fold. simpl. lia. Qed.

(** What the left join and [na.fill(0)] put in a lexicon column of the row
    of [(w, c)]. *)
Lemma filled_lexicon_count lex w c ws :
  In (w, c) (word_counts ws) ->
  na_fill0 (lookup w (groupBy_count (filter (fun x => isin x lex) ws)))
  = if isin w lex then c else 0.
Proof.
  intro H. apply In_word_counts in H. destruct H as (-> & Hc & _).
  rewrite lookup_lexicon_counts.
  destruct (isin w lex); simpl; [| reflexivity ].
  destruct (occ w ws =? 0) eqn:E; [ apply Z.eqb_eq in E; lia | reflexivity ].
Qed.

Lemma NoDup_map_filter {A B} (f : A -> B) (g : A -> bool) l :
  NoDup (map f l) -> NoDup (map f (filter g l)).
Proof.
  induction l as [| x l IH]; simpl; intro H; [ constructor |].
  inversion H as [| ? ? Hx Hl]; subst.
  destruct (g x); simpl; [| now apply IH ].
  constructor; [| now apply IH ].
  intro C. apply Hx. apply in_map_iff in C. destruct C as (y & E & Hy).
  apply in_map_iff. exists y. split; [ exact E |].
  now apply filter_In in Hy.
Qed.

Lemma NoDup_limit {A} n (l : list A) : NoDup l -> NoDup (limit n l).
Proof.
  unfold limit. intro H. rewrite <- (firstn_skipn n l) in H.
  now apply NoDup_app_remove_r in H.
Qed.

Lemma NoDup_map_orderBy {A B} (f : A -> B) le (l : list A) :
  NoDup (map f l) -> NoDup (map f (orderBy le l)).
Proof.
  intro H. eapply Permutation_NoDup; [| exact H ].
  apply Permutation_map. symmetry. apply orderBy_perm.
Qed.

Lemma NoDup_words_pmi_df {D} {ops : DoubleOps D} pl nl ws :
  NoDup (map word (pmi_df (D := D) pl nl ws)).
Proof.
  unfold pmi_df. rewrite map_map. simpl.
  apply NoDup_keys_groupBy_count.
Qed.

Lemma words_of_select3 {D} (l : list (PmiRow D)) :
  words_of (map select3 l) = map word l.
Proof. unfold words_of. rewrite map_map. reflexivity. Qed.

Lemma limit_map {A B} (f : A -> B) n l :
  limit n (map f l) = map f (limit n l).
Proof. unfold limit. apply firstn_map. Qed.

End CountFacts.

Import CountFacts.

(** X1.  The lexicon columns are frequencies of the seed words themselves:
    in every row of [pmi_df], [context_count] is the number of occurrences
    of the word in [clean_words_df], [pos_count] is that same number when
    the word is a positive seed word and 0 otherwise, and likewise
    [neg_count]; the lexicon totals are the numbers of seed-word tokens, or
    1 when there is none. *)
Theorem lexicon_counts_are_seed_word_frequencies :
  forall (D : Type) (ops : DoubleOps D) (sw : list string) (df : dataframe)
         (r : PmiRow D),
  let ws := clean_words_df sw df in
  In r (pmi_df positive_words negative_words ws) ->
  context_count r = occ (word r) ws /\
  pos_count r
  = (if isin (word r) positive_words then context_count r else 0) /\
  neg_count r
  = (if isin (word r) negative_words then context_count r else 0) /\
  total_pos positive_words ws
  = or_one (Z.of_nat (List.length
                        (filter (fun w => isin w positive_words) ws))) /\
  total_neg negative_words ws
  = or_one (Z.of_nat (List.length
                        (filter (fun w => isin w negative_words) ws))).
Proof.
  intros D ops sw df r ws H.
  apply In_pmi_df in H. destruct H as (w & c & Hin & ->). simpl.
  split; [ now apply In_word_counts in Hin |].
  split; [ now apply filled_lexicon_count |].
  split; [ now apply filled_lexicon_count |].
  rewrite total_pos_or_one, total_neg_or_one.
  unfold pos_counts, neg_counts. rewrite !sum_groupBy_count.
  split; reflexivity.
Qed.

Lemma lexicon_counts_are_seed_word_frequencies_witness :
  let r : PmiRow R := pmi_row 6 5 1 "great" 5 (Some 5) None in
  context_count r
  = occ "great" (clean_words_df english_stop_words [great_comment]) /\
  pos_count r = 5 /\ neg_count r = 0.
Proof.
  intro r.
  assert (In r (pmi_df positive_words negative_words
                  (clean_words_df english_stop_words [great_comment])))
    as Hin.
  { apply in_map_iff. exists ("great", 5). split; [ reflexivity |].
    vm_compute. left. reflexivity. }
  destruct (lexicon_counts_are_seed_word_frequencies R RealOps
              english_stop_words [great_comment] r Hin)
    as (H1 & H2 & H3 & _).
  repeat split; assumption.
Defined.

(** X2.  The count columns of [pmi_df] add up: [context_count] to the number
    of tokens in [clean_words_df], [pos_count] to the number of tokens that
    are positive seed words, [neg_count] to the number that are negative
    seed words. *)
Theorem count_columns_add_up :
  forall (D : Type) (ops : DoubleOps D) (sw : list string) (df : dataframe),
  let ws := clean_words_df sw df in
  let rows := pmi_df (D := D) positive_words negative_words ws in
  sum_Z (map context_count rows) = Z.of_nat (List.length ws) /\
  sum_Z (map pos_count rows)
  = Z.of_nat (List.length (filter (fun w => isin w positive_words) ws)) /\
  sum_Z (map neg_count rows)
  = Z.of_nat (List.length (filter (fun w => isin w negative_words) ws)).
Proof.
  intros D ops sw df ws rows. subst rows. unfold pmi_df.
  rewrite !map_map. simpl. repeat split.
  - apply sum_groupBy_count.
  - rewrite <- selected_sum_groupBy_count. f_equal.
    apply map_ext_in. intros [w c] H. simpl.
    now apply filled_lexicon_count.
  - rewrite <- selected_sum_groupBy_count. f_equal.
    apply map_ext_in. intros [w c] H. simpl.
    now apply filled_lexicon_count.
Qed.

(** X3.  Each of the three tables lists a word at most once, and the count
    it shows for a word is the number of occurrences of that word in
    [clean_words_df]; no ambiguous word is in a ranked table. *)
Theorem tables_list_each_word_once_with_its_frequency :
  forall (D : Type) (ops : DoubleOps D) (sw : list string) (df : dataframe),
  let ws := clean_words_df sw df in
  let res := run_pmi_reddit (D := D) sw df in
  NoDup (words_of (reddit_pmi_positive res)) /\
  NoDup (words_of (reddit_pmi_negative res)) /\
  NoDup (map fst (reddit_word_freq res)) /\
  (forall w c s,
      In (w, c, s) (reddit_pmi_positive res) \/
      In (w, c, s) (reddit_pmi_negative res) ->
      c = occ w ws /\ isin w ambiguous_words = false) /\
  (forall w c, In (w, c) (reddit_word_freq res) -> c = occ w ws /\ 0 < c).
Proof.
  intros D ops sw df ws res. subst res. unfold run_pmi_reddit. fold ws.
  simpl.
  assert (forall le,
            NoDup (words_of (limit 10 (map select3
              (orderBy le (pmi_filtered (D := D) positive_words
                             negative_words ws)))))) as Hnd.
  { intro le. rewrite limit_map, words_of_select3.
    unfold limit. rewrite <- firstn_map. apply (NoDup_limit 10).
    apply NoDup_map_orderBy. unfold pmi_filtered.
    do 2 apply NoDup_map_filter. apply NoDup_words_pmi_df. }
  split; [ apply Hnd |]. split; [ apply Hnd |]. split; [| split ].
  - unfold word_freq_top100, word_freq_clean, limit.
    rewrite <- firstn_map. apply (NoDup_limit 100).
    apply NoDup_map_orderBy, NoDup_keys_groupBy_count.
  - intros w c s H.
    assert (exists r, In r (pmi_filtered positive_words negative_words ws)
                      /\ (w, c, s) = select3 r) as (r & Hr & E).
    { destruct H as [H | H]; [ now apply In_top_pos | now apply In_top_neg ]. }
    inversion E; subst. apply In_pmi_filtered in Hr.
    destruct Hr as (Hr & _ & Hamb). split; [| exact Hamb ].
    apply In_pmi_df in Hr. destruct Hr as (w & c & Hin & ->). simpl.
    now apply In_word_counts in Hin.
  - intros w c H. unfold word_freq_top100, word_freq_clean in H.
    apply limit_In, orderBy_In, In_groupBy_count in H. exact H.
Qed.

(** ** Merging and reordering corpora *)

Module MergeFacts.
Import Col Frame FrameFacts TableFacts.

Lemma occ_app w l1 l2 : occ w (l1 ++ l2)%list = occ w l1 + occ w l2.
Proof. unfold occ. rewrite count_occ_app. lia. Qed.

Lemma occ_Permutation w l1 l2 : Permutation l1 l2 -> occ w l1 = occ w l2.
Proof.
  intro H. unfold occ. f_equal.
  now apply (Permutation_count_occ string_dec).
Qed.

(** The filled count of a word in a grouped count is its number of rows. *)
Lemma filled_groupBy_count w l : na_fill0 (lookup w (groupBy_count l)) = occ w l.
Proof.
  rewrite lookup_groupBy_count.
  destruct (occ w l =? 0) eqn:E; simpl; [| reflexivity ].
  apply Z.eqb_eq in E. lia.
Qed.

Lemma lookup_groupBy_count_Permutation w l1 l2 :
  Permutation l1 l2 ->
  lookup w (groupBy_count l1) = lookup w (groupBy_count l2).
Proof.
  intro H. rewrite !lookup_groupBy_count.
  now rewrite (occ_Permutation w l1 l2 H).
Qed.

Lemma filter_Permutation {A} (f : A -> bool) l1 l2 :
  Permutation l1 l2 -> Permutation (filter f l1) (filter f l2).
Proof.
  induction 1 as [| x l1 l2 H IH | x y l | l1 l2 l3 H1 IH1 H2 IH2]; simpl.
  - constructor.
  - destruct (f x); [ now constructor | exact IH ].
  - destruct (f x), (f y); try reflexivity. apply perm_swap.
  - now transitivity (filter f l2).
Qed.

Lemma clean_words_df_app sw (df1 df2 : dataframe) :
  clean_words_df sw (df1 ++ df2)%list
  = (clean_words_df sw df1 ++ clean_words_df sw df2)%list.
Proof.
  unfold clean_words_df, df_clean. now rewrite !filter_app, flat_map_app.
Qed.

Lemma clean_words_df_Permutation sw (df df' : dataframe) :
  Permutation df df' ->
  Permutation (clean_words_df sw df) (clean_words_df sw df').
Proof.
  intro H. unfold clean_words_df, df_clean.
  apply Permutation_flat_map. now do 2 apply filter_Permutation.
Qed.

(** The score of token [t] read from [pmi_df] is the score of the row built
    from [t]'s entries in the three tables. *)
Lemma score_of_pmi_df {D} {ops : DoubleOps D} pl nl ws t :
  score_of t (pmi_df (D := D) pl nl ws) =
  option_map
    (fun c => sentiment_score
                (pmi_row (D := D) (total_tokens ws) (total_pos pl ws)
                   (total_neg nl ws) t c
                   (lookup t (pos_counts pl ws))
                   (lookup t (neg_counts nl ws))))
    (lookup t (word_counts ws)).
Proof.
  unfold score_of, pmi_df. generalize (word_counts ws) as tb.
  induction tb as [| [k c] tb IH]; simpl; [ reflexivity |].
  destruct (String.eqb k t) eqn:E.
  - apply String.eqb_eq in E. subst k. reflexivity.
  - exact IH.
Qed.

End MergeFacts.

Import MergeFacts.

(** X4.  Two corpora merge by addition.  The tokens of a concatenated corpus
    are the tokens of the first part followed by those of the second, the
    token totals add, and for every word its count in each of the three
    frequency tables (0 where the word has no row) is the sum of its counts
    in the tables of the two parts. *)
Theorem corpora_merge_by_adding_counts :
  forall (sw : list string) (df1 df2 : dataframe) (w : string),
  let ws1 := clean_words_df sw df1 in
  let ws2 := clean_words_df sw df2 in
  let ws := clean_words_df sw (df1 ++ df2)%list in
  ws = (ws1 ++ ws2)%list /\
  total_tokens ws = total_tokens ws1 + total_tokens ws2 /\
  na_fill0 (lookup w (word_counts ws))
  = na_fill0 (lookup w (word_counts ws1))
    + na_fill0 (lookup w (word_counts ws2)) /\
  na_fill0 (lookup w (pos_counts positive_words ws))
  = na_fill0 (lookup w (pos_counts positive_words ws1))
    + na_fill0 (lookup w (pos_counts positive_words ws2)) /\
  na_fill0 (lookup w (neg_counts negative_words ws))
  = na_fill0 (lookup w (neg_counts negative_words ws1))
    + na_fill0 (lookup w (neg_counts negative_words ws2)).
Proof.
  intros sw df1 df2 w ws1 ws2 ws.
  assert (ws = (ws1 ++ ws2)%list) as E by apply clean_words_df_app.
  split; [ exact E |]. rewrite E.
  unfold total_tokens, word_counts, pos_counts, neg_counts.
  rewrite !filter_app, !filled_groupBy_count, !occ_app, length_app.
  repeat split; lia.
Qed.

(** X5.  The order of the documents does not matter to any token: two
    corpora with the same documents in a different order give every token
    the same entry in each frequency table, the same totals, and the same
    sentiment score (or no score in both). *)
Theorem document_order_does_not_matter :
  forall (D : Type) (ops : DoubleOps D) (sw : list string)
         (df df' : dataframe) (t : string),
  Permutation df df' ->
  let ws := clean_words_df sw df in
  let ws' := clean_words_df sw df' in
  lookup t (word_counts ws) = lookup t (word_counts ws') /\
  lookup t (pos_counts positive_words ws)
  = lookup t (pos_counts positive_words ws') /\
  lookup t (neg_counts negative_words ws)
  = lookup t (neg_counts negative_words ws') /\
  total_tokens ws = total_tokens ws' /\
  total_pos positive_words ws = total_pos positive_words ws' /\
  total_neg negative_words ws = total_neg negative_words ws' /\
  score_of t (pmi_df (D := D) positive_words negative_words ws)
  = score_of t (pmi_df (D := D) positive_words negative_words ws').
Proof.
  intros D ops sw df df' t H ws ws'.
  assert (Permutation ws ws') as P by now apply clean_words_df_Permutation.
  assert (lookup t (word_counts ws) = lookup t (word_counts ws')) as Hc
    by now apply lookup_groupBy_count_Permutation.
  assert (forall lex,
            Permutation (filter (fun w => isin w lex) ws)
                        (filter (fun w => isin w lex) ws')) as Pf
    by (intro lex; now apply filter_Permutation).
  assert (lookup t (pos_counts positive_words ws)
          = lookup t (pos_counts positive_words ws')) as Hp
    by (apply lookup_groupBy_count_Permutation, Pf).
  assert (lookup t (neg_counts negative_words ws)
          = lookup t (neg_counts negative_words ws')) as Hn
    by (apply lookup_groupBy_count_Permutation, Pf).
  assert (total_tokens ws = total_tokens ws') as HN
    by (unfold total_tokens; now rewrite (Permutation_length P)).
  assert (total_pos positive_words ws = total_pos positive_words ws') as HP.
  { rewrite !total_pos_or_one. unfold pos_counts.
    rewrite !sum_groupBy_count.
    now rewrite (Permutation_length (Pf positive_words)). }
  assert (total_neg negative_words ws = total_neg negative_words ws') as HQ.
  { rewrite !total_neg_or_one. unfold neg_counts.
    rewrite !sum_groupBy_count.
    now rewrite (Permutation_length (Pf negative_words)). }
  repeat split; try assumption.
  rewrite !score_of_pmi_df. now rewrite Hc, Hp, Hn, HN, HP, HQ.
Qed.

Lemma document_order_does_not_matter_witness :
  let other := Some (codepoints "a truly terrible and boring story") in
  score_of "great"
    (pmi_df (D := R) positive_words negative_words
       (clean_words_df english_stop_words [great_comment; other]))
  = score_of "great"
      (pmi_df (D := R) positive_words negative_words
         (clean_words_df english_stop_words [other; great_comment])).
Proof.
  intro other.
  assert (Permutation [great_comment; other] [other; great_comment]) as P
    by apply perm_swap.
  exact (proj2 (proj2 (proj2 (proj2 (proj2 (proj2
    (document_order_does_not_matter R RealOps english_stop_words
       [great_comment; other] [other; great_comment] "great" P))))))).
Defined.

(** ** Ranking *)

Module RankFacts.
Import Col Frame FrameFacts TableFacts.

Lemma StronglySorted_app_inv {A} (R : A -> A -> Prop) l1 l2 :
  StronglySorted R (l1 ++ l2) ->
  StronglySorted R l1 /\ StronglySorted R l2 /\
  (forall x y, In x l1 -> In y l2 -> R x y).
Proof.
  induction l1 as [| a l1 IH]; simpl; intro H.
  - repeat split; [ constructor | exact H | intros x y [] ].
  - inversion H as [| ? ? Hs Hall]; subst.
    destruct (IH Hs) as (H1 & H2 & H12).
    rewrite Forall_app in Hall. destruct Hall as [Ha1 Ha2].
    repeat split; [ now constructor | exact H2 |].
    intros x y [-> | Hx] Hy; [| now apply H12 ].
    rewrite Forall_forall in Ha2. now apply Ha2.
Qed.

Lemma StronglySorted_map {A B} (f : A -> B) (R : B -> B -> Prop) l :
  StronglySorted (fun a b => R (f a) (f b)) l -> StronglySorted R (map f l).
Proof.
  induction 1 as [| a l Hs IH Hall]; simpl; constructor; [ exact IH |].
  rewrite Forall_forall in *. intros y Hy.
  apply in_map_iff in Hy. destruct Hy as (x & <- & Hx). now apply Hall.
Qed.

Lemma StronglySorted_weaken {A} (R R' : A -> A -> Prop) l :
  (forall a b, R a b -> R' a b) ->
  StronglySorted R l -> StronglySorted R' l.
Proof.
  intros HR. induction 1 as [| a l Hs IH Hall]; constructor; [ exact IH |].
  rewrite Forall_forall in *. intros y Hy. now apply HR, Hall.
Qed.

(** With a total and transitive order, [orderBy] sorts strongly: every row
    is in order with every later row. *)
Lemma orderBy_StronglySorted {A} (le : A -> A -> bool) l :
  (forall u v, le u v = false -> le v u = true) ->
  (forall u v w, le u v = true -> le v w = true -> le u w = true) ->
  StronglySorted (fun u v => le u v = true) (orderBy le l).
Proof.
  intros Htot Htrans. apply Sorted_StronglySorted.
  - intros u v w. apply Htrans.
  - now apply orderBy_Sorted.
Qed.

(** [orderBy] then [limit]: the rows kept, the rows left out, and the order
    between them. *)
Lemma orderBy_limit_split {A} (le : A -> A -> bool) n l :
  (forall u v, le u v = false -> le v u = true) ->
  (forall u v w, le u v = true -> le v w = true -> le u w = true) ->
  let top := limit n (orderBy le l) in
  let rest := skipn n (orderBy le l) in
  orderBy le l = (top ++ rest)%list /\
  Permutation (top ++ rest) l /\
  StronglySorted (fun u v => le u v = true) top /\
  (forall x y, In x top -> In y rest -> le x y = true) /\
  List.length top = Nat.min n (List.length l).
Proof.
  intros Htot Htrans top rest.
  assert (orderBy le l = (top ++ rest)%list) as E
    by (symmetry; apply firstn_skipn).
  pose proof (orderBy_StronglySorted le l Htot Htrans) as S.
  rewrite E in S. apply StronglySorted_app_inv in S.
  destruct S as (S1 & _ & S12).
  repeat split; try assumption.
  - rewrite <- E. apply orderBy_perm.
  - subst top. unfold limit. now rewrite length_firstn, orderBy_length.
Qed.

Lemma sum_Z_Permutation l1 l2 : Permutation l1 l2 -> sum_Z l1 = sum_Z l2.
Proof.
  induction 1; simpl; lia.
Qed.

Lemma count_desc_total u v : count_desc u v = false -> count_desc v u = true.
Proof. unfold count_desc. rewrite Z.leb_gt, Z.leb_le. lia. Qed.

Lemma count_desc_trans u v w :
  count_desc u v = true -> count_desc v w = true -> count_desc u w = true.
Proof. unfold count_desc. rewrite !Z.leb_le. lia. Qed.

Lemma dleb_R_true a b : dleb (D := R) a b = true <-> (a <= b)%R.
Proof.
  simpl. destruct (Rle_dec a b); split; intro H;
    try reflexivity; try assumption; try discriminate; contradiction.
Qed.

Lemma dleb_R_total a b : dleb (D := R) a b = false -> dleb (D := R) b a = true.
Proof.
  intro H. apply dleb_R_true.
  destruct (Rle_dec a b) as [L | L].
  - apply dleb_R_true in L. congruence.
  - lra.
Qed.

Lemma dleb_R_trans a b c :
  dleb (D := R) a b = true -> dleb (D := R) b c = true ->
  dleb (D := R) a c = true.
Proof. rewrite !dleb_R_true. lra. Qed.

End RankFacts.

Import RankFacts.

(** X6.  [word_freq_clean] is [word_counts] put in descending order of
    count: the same rows, each count at least the counts after it, the
    counts adding up to the number of tokens.  The file of the top 100
    holds the first [min 100 n] of the [n] rows, and no row left out has a
    larger count than a row it holds. *)
Theorem word_freq_is_ranked_by_count :
  forall (sw : list string) (df : dataframe),
  let ws := clean_words_df sw df in
  let top := word_freq_top100 ws in
  Permutation (word_freq_clean ws) (word_counts ws) /\
  StronglySorted (fun a b => snd b <= snd a) (word_freq_clean ws) /\
  sum_Z (map snd (word_freq_clean ws)) = total_tokens ws /\
  List.length top = Nat.min 100 (List.length (word_counts ws)) /\
  exists rest,
    word_freq_clean ws = (top ++ rest)%list /\
    forall a b, In a top -> In b rest -> snd b <= snd a.
Proof.
  intros sw df ws top.
  pose proof (orderBy_limit_split count_desc 100 (groupBy_count ws)
                count_desc_total count_desc_trans)
    as (E & P & _ & Htop & Hlen).
  pose proof (orderBy_StronglySorted count_desc (groupBy_count ws)
                count_desc_total count_desc_trans) as S.
  split; [ apply orderBy_perm |]. split; [| split; [| split ] ].
  - unfold word_freq_clean.
    eapply StronglySorted_weaken; [| exact S ].
    intros a b H. unfold count_desc in H. now apply Z.leb_le in H.
  - rewrite total_tokens_is_sum. apply sum_Z_Permutation, Permutation_map.
    apply orderBy_perm.
  - exact Hlen.
  - exists (skipn 100 (orderBy count_desc (groupBy_count ws))).
    split; [ exact E |].
    intros a b Ha Hb. specialize (Htop a b Ha Hb).
    unfold count_desc in Htop. now apply Z.leb_le in Htop.
Qed.

Lemma score_desc_true (a b : PmiRow R) :
  score_desc a b = true <-> (sentiment_score b <= sentiment_score a)%R.
Proof. unfold score_desc. apply dleb_R_true. Qed.

Lemma score_asc_true (a b : PmiRow R) :
  score_asc a b = true <-> (sentiment_score a <= sentiment_score b)%R.
Proof. unfold score_asc. apply dleb_R_true. Qed.

(** The rows [orderBy le] then [select] then [limit 10] keep, against the
    rows they leave out. *)
Lemma ranked_table_split (le : PmiRow R -> PmiRow R -> bool)
  (rel : R -> R -> Prop) (l : list (PmiRow R)) :
  (forall u v, le u v = false -> le v u = true) ->
  (forall u v w, le u v = true -> le v w = true -> le u w = true) ->
  (forall u v, le u v = true -> rel (sentiment_score u) (sentiment_score v)) ->
  let table := limit 10 (map select3 (orderBy le l)) in
  List.length table = Nat.min 10 (List.length l) /\
  StronglySorted (fun a b => rel (snd a) (snd b)) table /\
  exists rest,
    Permutation (table ++ rest) (map select3 l) /\
    forall a b, In a table -> In b rest -> rel (snd a) (snd b).
Proof.
  intros Htot Htrans Hrel table.
  destruct (orderBy_limit_split le 10 l Htot Htrans)
    as (E & P & S & Htop & Hlen).
  assert (table = map select3 (limit 10 (orderBy le l))) as Et
    by apply limit_map.
  rewrite Et. split; [| split ].
  - now rewrite length_map.
  - apply StronglySorted_map.
    eapply StronglySorted_weaken; [| exact S ].
    intros a b H. simpl. now apply Hrel.
  - exists (map select3 (skipn 10 (orderBy le l))). split.
    + rewrite <- map_app. now apply Permutation_map.
    + intros a b Ha Hb.
      apply in_map_iff in Ha. destruct Ha as (x & <- & Hx).
      apply in_map_iff in Hb. destruct Hb as (y & <- & Hy).
      simpl. apply Hrel. now apply Htop.
Qed.

(** X7.  Over the real numbers the two ranked tables hold the extreme
    scores.  Of the [n] rows that pass the two filters, [top_pos] holds
    [min 10 n], in descending order of score, and no row left out scores
    higher than a row it holds; [top_neg] holds [min 10 n], in ascending
    order, and no row left out scores lower than a row it holds. *)
Theorem ranked_tables_hold_the_extreme_scores :
  forall (sw : list string) (df : dataframe),
  let ws := clean_words_df sw df in
  let ranked := pmi_filtered (D := R) positive_words negative_words ws in
  let pos := top_pos (D := R) positive_words negative_words ws in
  let neg := top_neg (D := R) positive_words negative_words ws in
  (List.length pos = Nat.min 10 (List.length ranked) /\
   StronglySorted (fun a b => (snd b <= snd a)%R) pos /\
   exists rest,
     Permutation (pos ++ rest) (map select3 ranked) /\
     forall a b, In a pos -> In b rest -> (snd b <= snd a)%R) /\
  (List.length neg = Nat.min 10 (List.length ranked) /\
   StronglySorted (fun a b => (snd a <= snd b)%R) neg /\
   exists rest,
     Permutation (neg ++ rest) (map select3 ranked) /\
     forall a b, In a neg -> In b rest -> (snd a <= snd b)%R).
Proof.
  intros sw df ws ranked pos neg. split.
  - apply (ranked_table_split score_desc (fun x y => (y <= x)%R) ranked).
    + intros u v. apply dleb_R_total.
    + intros u v w H1 H2. unfold score_desc in *.
      now apply (dleb_R_trans _ (sentiment_score v)).
    + intros u v. apply score_desc_true.
  - apply (ranked_table_split score_asc (fun x y => (x <= y)%R) ranked).
    + intros u v. apply dleb_R_total.
    + intros u v w H1 H2. unfold score_asc in *.
      now apply (dleb_R_trans _ (sentiment_score v)).
    + intros u v. apply score_asc_true.
Qed.

(** ** What the score measures *)

Module ScoreFacts.
Import Col Frame FrameFacts TableFacts RealFacts CountFacts.




(** The counts and totals of a row of [pmi_df], all in range. *)
Lemma pmi_df_row_ranges pl nl ws (r : PmiRow R) :
  In r (pmi_df pl nl ws) ->
  exists w c,
    r = pmi_row (total_tokens ws) (total_pos pl ws) (total_neg nl ws) w c
                (lookup w (pos_counts pl ws)) (lookup w (neg_counts nl ws))
    /\ 0 < c <= total_tokens ws
    /\ 0 <= pos_count r <= c /\ 0 <= neg_count r <= c
    /\ 1 <= total_pos pl ws <= total_tokens ws
    /\ 1 <= total_neg nl ws <= total_tokens ws.
Proof.
  intro H. apply In_pmi_df in H. destruct H as (w & c & Hin & ->).
  exists w, c. split; [ reflexivity |]. simpl.
  apply In_word_counts in Hin. destruct Hin as (-> & Hc & Hw).
  pose proof (total_tokens_pos _ _ Hw) as HN.
  assert (forall (f : string -> bool),
            Z.of_nat (List.length (filter f ws)) <= total_tokens ws) as Hf.
  { intro f. unfold total_tokens. pose proof (filter_length_le f ws). lia. }
  assert (occ w ws <= total_tokens ws) as HcN.
  { unfold occ, total_tokens.
    pose proof (count_occ_bound string_dec w ws). lia. }
  pose proof (filled_lexicon_count_bounds pl w ws).
  pose proof (filled_lexicon_count_bounds nl w ws).
  pose proof (total_pos_ge_1 pl ws). pose proof (total_neg_ge_1 nl ws).
  assert (forall s, 0 <= s <= total_tokens ws -> or_one s <= total_tokens ws)
    as Hor.
  { intros s Hs. unfold or_one. destruct (s =? 0); lia. }
  unfold pos_counts, neg_counts in *.
  repeat split; try lia.
  - rewrite total_pos_or_one. unfold pos_counts.
    rewrite sum_groupBy_count. apply Hor. split; [ lia | apply Hf ].
  - rewrite total_neg_or_one. unfold neg_counts.
    rewrite sum_groupBy_count. apply Hor. split; [ lia | apply Hf ].
Qed.





End ScoreFacts.

Import ScoreFacts.





(** X10.  The three marginal columns are probabilities: in every row of
    [pmi_df], [p_w], [p_pos] and [p_neg] are greater than 0 and at most 1
    (a word has at most [N] occurrences, and a lexicon total is at most [N]
    even when it is the default 1, since a row exists only when [N >= 1]). *)
Theorem marginal_columns_are_probabilities :
  forall (sw : list string) (df : dataframe) (r : PmiRow R),
  let ws := clean_words_df sw df in
  In r (pmi_df positive_words negative_words ws) ->
  (0 < p_w r <= 1)%R /\ (0 < p_pos r <= 1)%R /\ (0 < p_neg r <= 1)%R.
Proof.
  intros sw df r ws H.
  apply pmi_df_row_ranges in H.
  destruct H as (w & c & -> & Hc & _ & _ & HP & HQ). simpl.
  assert (forall a b, 0 < a <= b -> (0 < IZR a / IZR b <= 1)%R) as Hq.
  { intros a b [Ha Hab].
    assert (0 < IZR a)%R by now apply IZR_pos.
    assert (0 < IZR b)%R by (apply IZR_pos; lia).
    assert (IZR a <= IZR b)%R by now apply IZR_le.
    split; [ now apply ratio_pos |].
    apply (Rmult_le_reg_r (IZR b)); [ assumption |].
    unfold Rdiv. rewrite Rmult_assoc, Rinv_l; lra. }
  repeat split; apply Hq; lia.
Qed.

Lemma marginal_columns_are_probabilities_witness :
  let r : PmiRow R := pmi_row 6 5 1 "great" 5 (Some 5) None in
  (0 < p_w r <= 1)%R.
Proof.
  intro r.
  assert (In r (pmi_df positive_words negative_words
                  (clean_words_df english_stop_words [great_comment])))
    as Hin.
  { apply in_map_iff. exists ("great", 5). split; [ reflexivity |].
    vm_compute. left. reflexivity. }
  exact (proj1 (marginal_columns_are_probabilities english_stop_words
                  [great_comment] r Hin)).
Defined.

(** ** The words the normalizer lets through *)

Module NormalizerFacts.
Import Col Frame FrameFacts TableFacts.

Ltac bool_to_N :=
  repeat match goal with
    | H : _ && _ = true |- _ => apply andb_true_iff in H; destruct H
    | H : _ || _ = true |- _ => apply orb_true_iff in H
    | H : _ && _ = false |- _ => apply andb_false_iff in H
    | H : _ || _ = false |- _ => apply orb_false_iff in H; destruct H
    | H : (_ <=? _)%N = true |- _ => apply N.leb_le in H
    | H : (_ <=? _)%N = false |- _ => apply N.leb_gt in H
    | H : (_ =? _)%N = true |- _ => apply N.eqb_eq in H
    | H : (_ =? _)%N = false |- _ => apply N.eqb_neq in H
    | H : _ \/ _ |- _ => destruct H
    | H : _ /\ _ |- _ => destruct H
    end.

Lemma is_lower_letter_spec a :
  is_lower_letter a = true <-> (97 <= N_of_ascii a <= 122)%N.
Proof.
  unfold is_lower_letter. cbv zeta.
  rewrite andb_true_iff, !N.leb_le. tauto.
Qed.

Lemma is_space_spec c :
  is_space c = true <-> (c = 32 \/ 9 <= c <= 13)%N.
Proof.
  unfold is_space.
  rewrite orb_true_iff, andb_true_iff, N.eqb_eq, !N.leb_le. tauto.
Qed.

Lemma is_letter_spec c :
  is_letter c = true <-> (65 <= c <= 90 \/ 97 <= c <= 122)%N.
Proof.
  unfold is_letter.
  rewrite orb_true_iff, !andb_true_iff, !N.leb_le. tauto.
Qed.

Lemma lower_ascii_of_code c :
  (c < 224)%N ->
  N_of_ascii (lower_ascii (ascii_of_N c))
  = (if ((65 <=? c) && (c <=? 90))%N then c + 32 else c)%N.
Proof.
  intro H. unfold lower_ascii. cbv zeta.
  rewrite (N_ascii_embedding c) by lia.
  destruct ((65 <=? c) && (c <=? 90))%N.
  - apply N_ascii_embedding. lia.
  - apply N_ascii_embedding. lia.
Qed.

(** One character through [regexp_replace] and [lower]. *)
Lemma text_char c :
  lower_or_space
    (lower_ascii (if is_letter c || is_space c then ascii_of_N c else space)).
Proof.
  unfold lower_or_space.
  destruct (is_letter c) eqn:L; simpl orb.
  - left. apply is_lower_letter_spec. apply is_letter_spec in L.
    rewrite lower_ascii_of_code by lia.
    destruct ((65 <=? c) && (c <=? 90))%N eqn:U; bool_to_N; lia.
  - destruct (is_space c) eqn:S.
    + right. apply is_space_spec. apply is_space_spec in S.
      rewrite lower_ascii_of_code by lia.
      destruct ((65 <=? c) && (c <=? 90))%N eqn:U; bool_to_N; lia.
    + right. reflexivity.
Qed.

Lemma list_ascii_of_lower s :
  list_ascii_of_string (lower s) = map lower_ascii (list_ascii_of_string s).
Proof. induction s as [| a s IH]; simpl; congruence. Qed.

(** The [text] column holds lower-case letters and white space only. *)
Lemma text_chars s :
  Forall lower_or_space
         (list_ascii_of_string (lower (regexp_replace_non_alpha s))).
Proof.
  unfold regexp_replace_non_alpha.
  rewrite list_ascii_of_lower, list_ascii_of_string_of_list_ascii, map_map.
  apply Forall_forall. intros a H. apply in_map_iff in H.
  destruct H as (c & <- & _). apply text_char.
Qed.

Lemma Forall_ltrim (P : ascii -> Prop) l : Forall P l -> Forall P (ltrim l).
Proof.
  induction 1 as [| a l Ha Hl IH]; simpl; [ constructor |].
  destruct (Ascii.eqb a space); [ exact IH | now constructor ].
Qed.

Lemma trim_chars (P : ascii -> Prop) s :
  Forall P (list_ascii_of_string s) -> Forall P (list_ascii_of_string (trim s)).
Proof.
  intro H. unfold trim. rewrite list_ascii_of_string_of_list_ascii.
  apply Forall_rev, Forall_ltrim, Forall_rev, Forall_ltrim, H.
Qed.

Lemma all_lower_letters_of_list l :
  Forall (fun a => is_lower_letter a = true) l ->
  all_lower_letters (string_of_list_ascii l) = true.
Proof.
  intro H. unfold all_lower_letters.
  rewrite list_ascii_of_string_of_list_ascii.
  apply forallb_forall. now apply Forall_forall.
Qed.

(** Every piece [split] gives is made of the characters that are not white
    space. *)
Lemma split_ws_from_pieces cs : forall cur in_ws piece,
  Forall lower_or_space cs ->
  Forall (fun a => is_lower_letter a = true) cur ->
  In piece (split_ws_from cs cur in_ws) ->
  all_lower_letters piece = true.
Proof.
  induction cs as [| a cs IH]; intros cur in_ws piece Hcs Hcur Hin.
  - simpl in Hin. destruct Hin as [<- | []].
    apply all_lower_letters_of_list, Forall_rev, Hcur.
  - inversion Hcs as [| ? ? Ha Hcs']; subst. simpl in Hin.
    destruct (is_space (N_of_ascii a)) eqn:S.
    + destruct in_ws.
      * apply (IH cur true piece Hcs' Hcur Hin).
      * destruct Hin as [<- | Hin].
        -- apply all_lower_letters_of_list, Forall_rev, Hcur.
        -- apply (IH [] true piece Hcs'); [ constructor | exact Hin ].
    + destruct Ha as [Ha | Ha]; [| congruence ].
      eapply IH; [ exact Hcs' | | exact Hin ]. now constructor.
Qed.

Lemma tokens_are_lower s ws w :
  tokens (Some s) = Some ws -> In w ws -> all_lower_letters w = true.
Proof.
  unfold tokens, text. simpl. intros E H. inversion E; subst. clear E.
  unfold split_ws in H.
  eapply split_ws_from_pieces; [ | constructor | exact H ].
  apply trim_chars, text_chars.
Qed.

Lemma lower_ascii_id a : is_lower_letter a = true -> lower_ascii a = a.
Proof.
  intro H. apply is_lower_letter_spec in H. unfold lower_ascii. cbv zeta.
  destruct ((65 <=? N_of_ascii a) && (N_of_ascii a <=? 90))%N eqn:U;
    [| reflexivity ].
  bool_to_N. lia.
Qed.

(** [lower] leaves a word of lower-case letters alone. *)
Lemma lower_id w : all_lower_letters w = true -> lower w = w.
Proof.
  unfold all_lower_letters.
  induction w as [| a w IH]; simpl; intro H; [ reflexivity |].
  apply andb_true_iff in H. destruct H as [Ha Hw].
  now rewrite lower_ascii_id, IH.
Qed.

Lemma prefix_app_l p q s :
  String.prefix (p ++ q) s = true -> String.prefix p s = true.
Proof.
  revert s. induction p as [| a p IH]; intros s H; simpl.
  - now destruct s.
  - destruct s as [| b s]; simpl in *; [ discriminate |].
    destruct (ascii_dec a b); [ now apply IH | discriminate ].
Qed.

(** A value that matches a pattern matches every beginning of it. *)
Lemma rlike_app_l s p q : rlike s (p ++ q) = true -> rlike s p = true.
Proof.
  induction s as [| a s IH]; intro H; cbn [rlike] in H |- *.
  - apply orb_true_iff in H. destruct H as [H | H]; [| discriminate ].
    apply prefix_app_l in H. now rewrite H.
  - apply orb_true_iff in H. destruct H as [H | H].
    + apply prefix_app_l in H. now rewrite H.
    + rewrite (IH H). apply orb_true_r.
Qed.

Lemma rlike_https_http w : rlike w "https" = true -> rlike w "http" = true.
Proof. apply (rlike_app_l w "http" "s"). Qed.

Lemma keep_word_drops_https w : keep_word w = keep_word_two_url_filters w.
Proof.
  unfold keep_word, keep_word_two_url_filters.
  destruct (rlike w "https") eqn:E; [| now rewrite andb_true_r ].
  rewrite (rlike_https_http w E). simpl.
  now rewrite !andb_false_r.
Qed.

(** The words of a comment, whatever the comment. *)
Lemma In_normalize sw c w :
  In w (normalize sw c) ->
  exists s ws,
    c = Some s /\ tokens c = Some ws /\ In w ws /\
    isin (lower w) (map lower sw) = false /\ keep_word w = true.
Proof.
  unfold normalize, clean_tokens. intro H. apply filter_In in H.
  destruct H as [H K]. destruct c as [s |]; [| contradiction ].
  simpl in H. unfold remove_stop_words in H. apply filter_In in H.
  destruct H as [H S]. apply negb_true_iff in S.
  exists s, (split_ws (trim (lower (regexp_replace_non_alpha s)))).
  repeat split; assumption.
Qed.

Lemma clean_word_facts sw df w :
  In w (clean_words_df sw df) ->
  all_lower_letters w = true /\
  3 <= length_s w /\
  isin w custom_noise_words = false /\
  isin w (map lower sw) = false /\
  rlike w "http" = false /\
  rlike w "www" = false.
Proof.
  unfold clean_words_df. intro H. apply in_flat_map in H.
  destruct H as (c & _ & H). apply In_normalize in H.
  destruct H as (s & ws & -> & Et & Hw & Hs & K).
  pose proof (tokens_are_lower s ws w Et Hw) as L.
  rewrite (lower_id w L) in Hs.
  unfold keep_word in K.
  repeat (apply andb_true_iff in K; destruct K as [K ?]).
  repeat match goal with
         | H : negb _ = true |- _ => apply negb_true_iff in H
         end.
  assert (2 < length_s w) by now apply Z.ltb_lt.
  repeat split; try assumption. lia.
Qed.

End NormalizerFacts.

Import NormalizerFacts.

(** X11.  Whatever the comments hold, every word that reaches the
    aggregator, and so every word of the three output tables, is made of
    the letters a-z only, has at least three letters, is neither a noise
    word nor (up to case) a stop word, and has neither "http" nor "www" in
    it. *)
Theorem clean_words_are_filtered_lowercase_words :
  forall (D : Type) (ops : DoubleOps D) (sw : list string) (df : dataframe)
         (w : string),
  let res := run_pmi_reddit (D := D) sw df in
  In w (clean_words_df sw df) \/
  In w (words_of (reddit_pmi_positive res)) \/
  In w (words_of (reddit_pmi_negative res)) \/
  In w (map fst (reddit_word_freq res)) ->
  all_lower_letters w = true /\
  3 <= length_s w /\
  isin w custom_noise_words = false /\
  isin w (map lower sw) = false /\
  rlike w "http" = false /\
  rlike w "www" = false.
Proof.
  intros D ops sw df w res H.
  apply (clean_word_facts sw df).
  set (ws := clean_words_df sw df) in *.
  assert (forall row : string * Z * D,
            (exists r, In r (pmi_filtered positive_words negative_words ws)
                       /\ row = select3 r) ->
            In (fst (fst row)) ws) as Hrow.
  { intros row (r & Hr & ->). apply In_pmi_filtered in Hr.
    destruct Hr as (Hr & _). apply In_pmi_df in Hr.
    destruct Hr as (w' & c & Hin & ->). simpl.
    now apply In_word_counts in Hin. }
  destruct H as [H | [H | [H | H]]].
  - exact H.
  - apply in_map_iff in H. destruct H as (row & <- & H).
    apply Hrow. now apply In_top_pos.
  - apply in_map_iff in H. destruct H as (row & <- & H).
    apply Hrow. now apply In_top_neg.
  - apply in_map_iff in H. destruct H as ([w' c] & <- & H). simpl.
    unfold res, run_pmi_reddit in H. cbn [reddit_word_freq] in H.
    unfold word_freq_top100, word_freq_clean in H.
    apply limit_In, orderBy_In in H.
    now apply (In_word_counts w' c ws).
Qed.

Lemma clean_words_are_filtered_lowercase_words_witness :
  all_lower_letters "great" = true /\ 3 <= length_s "great".
Proof.
  assert (In "great" (clean_words_df english_stop_words [great_comment]))
    as H by (vm_compute; left; reflexivity).
  destruct (clean_words_are_filtered_lowercase_words R RealOps
              english_stop_words [great_comment] "great" (or_introl H))
    as (H1 & H2 & _).
  split; assumption.
Defined.

(** X12.  The filter on "https" never removes a row: a word with "https" in
    it has "http" in it and was removed by the filter before.
    [clean_words_df] is what the word filters without the last one give. *)
Theorem https_filter_is_redundant :
  forall (sw : list string) (df : dataframe),
  (forall w, rlike w "https" = true -> rlike w "http" = true) /\
  (forall w, keep_word w = keep_word_two_url_filters w) /\
  clean_words_df sw df
  = flat_map (fun c => filter keep_word_two_url_filters
                              (explode (clean_tokens sw c)))
             (df_clean df).
Proof.
  intros sw df. split; [ exact rlike_https_http |].
  split; [ exact keep_word_drops_https |].
  unfold clean_words_df, normalize.
  apply flat_map_ext. intro c.
  apply filter_ext. exact keep_word_drops_https.
Qed.

(** ** Letter case *)

Module CaseFacts.
Import Col Frame NormalizerFacts.

Lemma lower_string_of_list l :
  lower (string_of_list_ascii l) = string_of_list_ascii (map lower_ascii l).
Proof. induction l as [| a l IH]; simpl; congruence. Qed.

(** A capital and its lower-case letter give the same character of [text]. *)
Lemma text_char_fold_case c :
  lower_ascii (if is_letter (lower_code c) || is_space (lower_code c)
               then ascii_of_N (lower_code c) else space)
  = lower_ascii (if is_letter c || is_space c then ascii_of_N c else space).
Proof.
  unfold lower_code.
  destruct ((65 <=? c) && (c <=? 90))%N eqn:U; [| reflexivity ].
  assert (65 <= c <= 90)%N as Hc by (bool_to_N; lia).
  assert (is_letter c = true) as L1 by (apply is_letter_spec; lia).
  assert (is_letter (c + 32) = true) as L2 by (apply is_letter_spec; lia).
  rewrite L1, L2. simpl orb.
  unfold lower_ascii. cbv zeta.
  rewrite !N_ascii_embedding by lia. rewrite U.
  destruct ((65 <=? c + 32) && (c + 32 <=? 90))%N eqn:V; [| reflexivity ].
  bool_to_N. lia.
Qed.

Lemma text_fold_case s : text (Some (fold_case s)) = text (Some s).
Proof.
  unfold text, fold_case, regexp_replace_non_alpha. simpl. f_equal.
  rewrite !lower_string_of_list, !map_map. f_equal.
  apply map_ext. intro c. apply text_char_fold_case.
Qed.

Lemma normalize_fold_case sw c :
  normalize sw (option_map fold_case c) = normalize sw c.
Proof.
  destruct c as [s |]; [| reflexivity ].
  change (option_map fold_case (Some s)) with (Some (fold_case s)).
  unfold normalize, clean_tokens, tokens.
  now rewrite text_fold_case.
Qed.

Lemma df_clean_fold_case (df : dataframe) :
  df_clean (map (option_map fold_case) df)
  = map (option_map fold_case) (df_clean df).
Proof.
  unfold df_clean.
  induction df as [| c df IH]; simpl; [ reflexivity |].
  destruct c as [s |]; simpl; [| exact IH ].
  unfold length_u, fold_case at 1. rewrite length_map.
  fold (length_u s).
  destruct (20 <? length_u s); simpl; now rewrite IH.
Qed.

End CaseFacts.

Import CaseFacts.

(** X13.  The case of the letters in the comments does not matter: making
    the capitals A-Z of every comment lower case beforehand gives the same
    [text] column, the same rows after cleaning, the same words and the same
    three tables. *)
Theorem letter_case_of_comments_does_not_matter :
  forall (D : Type) (ops : DoubleOps D) (sw : list string) (df : dataframe),
  let df' := map (option_map fold_case) df in
  (forall s, text (Some (fold_case s)) = text (Some s)) /\
  clean_words_df sw df' = clean_words_df sw df /\
  run_pmi_reddit (D := D) sw df' = run_pmi_reddit sw df.
Proof.
  intros D ops sw df df'.
  assert (clean_words_df sw df' = clean_words_df sw df) as E.
  { unfold clean_words_df. subst df'. rewrite df_clean_fold_case.
    rewrite flat_map_concat_map, map_map, <- flat_map_concat_map.
    apply flat_map_ext. intro c. apply normalize_fold_case. }
  split; [ exact text_fold_case |]. split; [ exact E |].
  unfold run_pmi_reddit. now rewrite E.
Qed.

(* ================================================================== *)
(** * The Reddit scraper *)
(* ================================================================== *)

Module RedditFacts.
Import Col Reddit.

Lemma starts_with_app (a b s : ustring) :
  starts_with (a ++ b)%list s = true ->
  starts_with a s = true /\ starts_with b (skipn (List.length a) s) = true.
Proof.
  revert s. induction a as [| x a IH]; intros s H; simpl in *.
  - split; [ now destruct s | exact H ].
  - destruct s as [| y s]; [ discriminate |].
    apply andb_true_iff in H. destruct H as [E H].
    destruct (IH s H) as [H1 H2]. now rewrite E, H1.
Qed.

Lemma contains_here b s : starts_with b s = true -> contains b s = true.
Proof. intro H. destruct s; simpl; now rewrite H. Qed.

Lemma contains_later b c s : contains b s = true -> contains b (c :: s) = true.
Proof. intro H. cbn [contains]. rewrite H. apply orb_true_r. Qed.

Lemma contains_skipn b n : forall s,
  contains b (skipn n s) = true -> contains b s = true.
Proof.
  induction n as [| n IH]; intros s H; [ exact H |].
  destruct s as [| c s]; [ exact H |].
  apply contains_later, IH, H.
Qed.

(** A text that holds a string holds its beginnings and its ends. *)
Lemma contains_app (a b s : ustring) :
  contains (a ++ b)%list s = true ->
  contains a s = true /\ contains b s = true.
Proof.
  induction s as [| c s IH]; intro H; cbn [contains] in H.
  - rewrite orb_false_r in H. apply starts_with_app in H.
    destruct H as [H1 H2]. split; [ now apply contains_here |].
    eapply contains_skipn, contains_here, H2.
  - apply orb_true_iff in H. destruct H as [H | H].
    + apply starts_with_app in H. destruct H as [H1 H2].
      split; [ now apply contains_here |].
      eapply contains_skipn, contains_here, H2.
    + destruct (IH H) as [H1 H2]. split; now apply contains_later.
Qed.

(** Three different elements that pass a filter are three rows of it. *)
Lemma three_matches {A} (f : A -> bool) (x y z : A) l :
  NoDup [x; y; z] -> In x l -> In y l -> In z l ->
  f x = true -> f y = true -> f z = true ->
  (3 <= List.length (filter f l))%nat.
Proof.
  intros N Hx Hy Hz Fx Fy Fz.
  change 3%nat with (List.length [x; y; z]).
  apply NoDup_incl_length; [ exact N |].
  intros u [<- | [<- | [<- | []]]]; apply filter_In; now split.
Qed.

Lemma is_review_like_length py_lower text :
  is_review_like py_lower text = true -> 100 <= length_u text.
Proof.
  unfold is_review_like, MIN_TEXT_LENGTH.
  destruct (length_u text <? 100) eqn:E; [ discriminate |].
  intros _. now apply Z.ltb_ge in E.
Qed.

Lemma length_u_firstn n (s : ustring) :
  length_u (firstn n s) = Z.min (Z.of_nat n) (length_u s).
Proof. unfold length_u. rewrite length_firstn. lia. Qed.

Section Rows.
Context (py_lower : ustring -> ustring) {json : Type} (deleted zero : json)
        (date_of : json -> ustring).

(** What [parse_comment] returns, when it returns a row. *)
Lemma parse_comment_Some (data : CommentData json) r :
  parse_comment py_lower deleted zero date_of data = Some r ->
  exists text,
    body data = Some text /\
    contains_required_terms py_lower text = true /\
    is_review_like py_lower text = true /\
    r = mkRow (get (author data) deleted)
              (date_of (get (created_utc data) zero))
              (firstn 5000 text) (get (score data) zero) "comment".
Proof.
  unfold parse_comment.
  destruct (body data) as [text |] eqn:Eb; [| discriminate ].
  destruct (contains_required_terms py_lower text) eqn:Ec; cbn [negb];
    [| discriminate ].
  destruct (length_u text <? MIN_TEXT_LENGTH); [ discriminate |].
  destruct (is_review_like py_lower text) eqn:Er; cbn [negb];
    [| discriminate ].
  intro H. injection H as <-. exists text.
  repeat split; assumption || reflexivity.
Qed.

Lemma row_of_parse_comment (data : CommentData json) r :
  parse_comment py_lower deleted zero date_of data = Some r ->
  100 <= length_u (row_comment r) <= 5000 /\
  row_type r = "comment" /\
  df_clean [Some (row_comment r)] = [Some (row_comment r)].
Proof.
  intro H. apply parse_comment_Some in H.
  destruct H as (text & _ & _ & Hr & ->). cbn [row_comment row_type].
  apply is_review_like_length in Hr.
  assert (100 <= length_u (firstn 5000 text) <= 5000) as Hb
    by (rewrite length_u_firstn; lia).
  repeat split; try lia. apply df_clean_kept. lia.
Qed.

Lemma rows_of_extract_child :
  forall (child : Thing json) r,
  In r (extract_child py_lower deleted zero date_of child) ->
  exists data, parse_comment py_lower deleted zero date_of data = Some r.
Proof.
  fix IH 1. intros [kind data replies] r H. cbn [extract_child] in H.
  destruct (is_t1 kind); [| contradiction ].
  apply in_app_or in H. destruct H as [H | H].
  - exists data. destruct (parse_comment py_lower deleted zero date_of data)
      as [x |]; simpl in H; [| contradiction ].
    destruct H as [-> | []]. reflexivity.
  - induction replies as [| t replies IHr]; simpl in H; [ contradiction |].
    apply in_app_or in H. destruct H as [H | H].
    + exact (IH t r H).
    + exact (IHr H).
Qed.

End Rows.

End RedditFacts.

Import RedditFacts.

(** X14.  [parse_comment] returns a row exactly for a comment with a body
    that holds a required term and is review-like; the separate test on the
    length of the body changes nothing, [is_review_like] makes it already.
    The row is of type "comment" and its [comment] is the body cut at 5000
    characters, so between 100 and 5000 characters long. *)
Theorem parse_comment_keeps_review_like_bodies :
  forall (py_lower : Col.ustring -> Col.ustring) (json : Type)
         (deleted zero : json) (date_of : json -> Col.ustring)
         (data : Reddit.CommentData json),
  (forall r,
      Reddit.parse_comment py_lower deleted zero date_of data = Some r ->
      exists text,
        Reddit.body data = Some text /\
        Reddit.contains_required_terms py_lower text = true /\
        Reddit.is_review_like py_lower text = true /\
        Reddit.row_comment r = firstn 5000 text /\
        100 <= length_u (Reddit.row_comment r) <= 5000 /\
        Reddit.row_type r = "comment") /\
  (forall text,
      Reddit.body data = Some text ->
      Reddit.contains_required_terms py_lower text = true ->
      Reddit.is_review_like py_lower text = true ->
      exists r,
        Reddit.parse_comment py_lower deleted zero date_of data = Some r).
Proof.
  intros py_lower json deleted zero date_of data. split.
  - intros r H.
    pose proof (row_of_parse_comment _ _ _ _ _ _ H) as (Hlen & Hty & _).
    apply parse_comment_Some in H. destruct H as (text & Hb & Hc & Hr & ->).
    exists text. repeat split; try assumption; apply Hlen.
  - intros text Hb Hc Hr. unfold Reddit.parse_comment.
    rewrite Hb, Hc, Hr. cbn [negb].
    apply is_review_like_length in Hr. unfold Reddit.MIN_TEXT_LENGTH.
    apply Z.ltb_ge in Hr. rewrite Hr. eexists. reflexivity.
Qed.

Lemma parse_comment_keeps_review_like_bodies_witness :
  exists r,
    Reddit.parse_comment fold_case 0 0 (fun _ => [])
      (Reddit.mkCommentData (Some Reddit.sample_body) None (Some 7) None)
    = Some r.
Proof.
  refine (proj2 (parse_comment_keeps_review_like_bodies fold_case Z 0 0
                   (fun _ => [])
                   (Reddit.mkCommentData (Some Reddit.sample_body) None
                      (Some 7) None))
            Reddit.sample_body eq_refl _ _);
    vm_compute; reflexivity.
Defined.

(** X15.  The indicators overlap: "gameplay" holds "game" and "play", so a
    text of at least 100 characters whose lower case holds "gameplay" is
    review-like, whatever else it says. *)
Theorem gameplay_alone_makes_a_text_review_like :
  forall (py_lower : Col.ustring -> Col.ustring) (text : Col.ustring),
  100 <= length_u text ->
  Reddit.contains (codepoints "gameplay") (py_lower text) = true ->
  Reddit.is_review_like py_lower text = true.
Proof.
  intros py_lower text Hlen H.
  unfold Reddit.is_review_like, Reddit.MIN_TEXT_LENGTH.
  apply Z.ltb_ge in Hlen. rewrite Hlen. cbv zeta. apply Z.leb_le.
  destruct (contains_app (codepoints "game") (codepoints "play")
              (py_lower text) H) as [Hg Hp].
  pose proof (three_matches
                (fun ind => Reddit.contains ind (py_lower text))
                (codepoints "game") (codepoints "play")
                (codepoints "gameplay") Reddit.review_indicators) as T.
  assert (3 <= List.length
                 (filter (fun ind => Reddit.contains ind (py_lower text))
                         Reddit.review_indicators))%nat as T'.
  { apply T; try assumption.
    - repeat constructor; simpl; intuition discriminate.
    - vm_compute. tauto.
    - vm_compute. tauto.
    - vm_compute. tauto. }
  lia.
Qed.

Lemma gameplay_alone_makes_a_text_review_like_witness :
  Reddit.is_review_like fold_case Reddit.sample_body = true.
Proof.
  apply gameplay_alone_makes_a_text_review_like.
  - vm_compute. discriminate.
  - vm_compute. reflexivity.
Defined.

(** X16.  Every row [extract_comments] collects from a comment tree, at any
    depth, is a row [parse_comment] made: a "comment" of 100 to 5000
    characters.  Each such row therefore passes the row filter of the
    pipeline ([comment] not null and longer than 20 characters). *)
Theorem scraped_comments_pass_the_row_filter :
  forall (py_lower : Col.ustring -> Col.ustring) (json : Type)
         (deleted zero : json) (date_of : json -> Col.ustring)
         (children : list (Reddit.Thing json)) (r : Reddit.Row json),
  In r (Reddit.extract_comments py_lower deleted zero date_of children) ->
  100 <= length_u (Reddit.row_comment r) <= 5000 /\
  Reddit.row_type r = "comment" /\
  df_clean [Some (Reddit.row_comment r)] = [Some (Reddit.row_comment r)].
Proof.
  intros py_lower json deleted zero date_of children r H.
  unfold Reddit.extract_comments in H. apply in_flat_map in H.
  destruct H as (child & _ & H).
  apply rows_of_extract_child in H. destruct H as (data & H).
  now apply row_of_parse_comment in H.
Qed.

Lemma scraped_comments_pass_the_row_filter_witness :
  let data :=
    Reddit.mkCommentData (Some Reddit.sample_body) None (Some 7) None in
  let row :=
    Reddit.mkRow 0 [] (firstn 5000 Reddit.sample_body) 7 "comment" in
  df_clean [Some (Reddit.row_comment row)] = [Some (Reddit.row_comment row)].
Proof.
  intros data row.
  refine (proj2 (proj2 (scraped_comments_pass_the_row_filter fold_case Z 0 0
            (fun _ => [])
            [Reddit.mkThing (Some "more") data [];
             Reddit.mkThing (Some "t1")
               (Reddit.mkCommentData None None None None)
               [Reddit.mkThing (Some "t1") data []]]
            row _))).
  vm_compute. left. reflexivity.
Defined.

(* ================================================================== *)
(** * The Steam scraper *)
(* ================================================================== *)

(** X17.  The [comment] of a Steam review row is the review on one line: it
    holds no carriage return and no line feed, it is as long as the review,
    and it is the review with exactly those characters turned into
    spaces (a missing review gives the empty comment). *)
Theorem review_comment_is_one_line :
  forall (review : option Col.ustring),
  let comment := Steam.review_comment review in
  ~ In 13%N comment /\
  ~ In 10%N comment /\
  List.length comment = List.length (Reddit.get review []) /\
  (forall i,
      nth i comment 0%N =
      let c := nth i (Reddit.get review []) 0%N in
      if ((c =? 13) || (c =? 10))%N then 32%N else c) /\
  Steam.review_comment None = [].
Proof.
  intros review comment. subst comment.
  unfold Steam.review_comment, Steam.replace_char.
  set (s := Reddit.get review []). rewrite map_map.
  assert (forall c : N,
            (if ((if (c =? 13)%N then 32%N else c) =? 10)%N
             then 32%N else (if (c =? 13)%N then 32%N else c))
            = (if ((c =? 13) || (c =? 10))%N then 32%N else c)) as G.
  { intro c. destruct (c =? 13)%N eqn:E13; simpl; [ reflexivity |].
    reflexivity. }
  repeat split.
  - intro H. apply in_map_iff in H. destruct H as (c & E & _).
    rewrite G in E.
    destruct ((c =? 13) || (c =? 10))%N eqn:B; [ discriminate |].
    apply orb_false_iff in B. destruct B as [B _].
    apply N.eqb_neq in B. congruence.
  - intro H. apply in_map_iff in H. destruct H as (c & E & _).
    rewrite G in E.
    destruct ((c =? 13) || (c =? 10))%N eqn:B; [ discriminate |].
    apply orb_false_iff in B. destruct B as [_ B].
    apply N.eqb_neq in B. congruence.
  - apply length_map.
  - intro i. cbv zeta. rewrite <- G.
    exact (map_nth
             (fun c : N =>
                if ((if (c =? 13)%N then 32%N else c) =? 10)%N
                then 32%N else (if (c =? 13)%N then 32%N else c))
             s 0%N i).
Qed.

(* ================================================================== *)
(** * The Instagram scraper *)
(* ================================================================== *)

Module InstagramFacts.
Import Col Instagram.

Lemma take_while_all f s : forallb f (take_while f s) = true.
Proof.
  induction s as [| c s IH]; simpl; [ reflexivity |].
  destruct (f c) eqn:E; simpl; [ now rewrite E | reflexivity ].
Qed.

(** A run of code characters, followed by nothing or by another character,
    is what [take_while] takes. *)
Lemma take_while_run f (code rest : ustring) :
  forallb f code = true ->
  match rest with [] => true | c :: _ => negb (f c) end = true ->
  take_while f (code ++ rest)%list = code.
Proof.
  intros Hc Hr. induction code as [| c code IH]; simpl in *.
  - destruct rest as [| c rest]; [ reflexivity |].
    simpl. apply negb_true_iff in Hr. now rewrite Hr.
  - apply andb_true_iff in Hc. destruct Hc as [Hc Hcode].
    rewrite Hc. f_equal. now apply IH.
Qed.

Lemma match_with_all pre s g :
  match_with pre s = Some g -> forallb is_code_char g = true.
Proof.
  unfold match_with. destruct (Reddit.starts_with (codepoints pre) s);
    [| discriminate ].
  pose proof (take_while_all is_code_char (skipn (String.length pre) s)) as T.
  destruct (take_while is_code_char (skipn (String.length pre) s));
    [ discriminate |].
  intro H. injection H as <-. exact T.
Qed.

Lemma match_at_all s g :
  match_at s = Some g -> forallb is_code_char g = true.
Proof.
  unfold match_at.
  destruct (match_with "/p/" s) eqn:E1.
  - intro H. injection H as <-. eapply match_with_all, E1.
  - destruct (match_with "/reel/" s) eqn:E2.
    + intro H. injection H as <-. eapply match_with_all, E2.
    + apply match_with_all.
Qed.

Lemma re_search_all s : forall g,
  re_search s = Some g -> forallb is_code_char g = true.
Proof.
  induction s as [| c s IH]; intro g; cbn [re_search].
  - destruct (match_at []) eqn:E; [| discriminate ].
    intro H. injection H as <-. eapply match_at_all, E.
  - destruct (match_at (c :: s)) eqn:E.
    + intro H. injection H as <-. eapply match_at_all, E.
    + apply IH.
Qed.

(** The search moves on from a position where the pattern does not match. *)
Lemma re_search_next c s :
  match_at (c :: s) = None -> re_search (c :: s) = re_search s.
Proof. intro H. cbn [re_search]. now rewrite H. Qed.

Lemma match_with_run pre (code rest : ustring) :
  code <> [] ->
  forallb is_code_char code = true ->
  match rest with [] => true | c :: _ => negb (is_code_char c) end = true ->
  match_with pre (codepoints pre ++ code ++ rest)%list = Some code.
Proof.
  intros Hne Hc Hr. unfold match_with.
  assert (Reddit.starts_with (codepoints pre)
            (codepoints pre ++ code ++ rest)%list = true) as S.
  { induction (codepoints pre) as [| a p IH]; simpl; [ reflexivity |].
    now rewrite N.eqb_refl. }
  rewrite S.
  assert (skipn (String.length pre) (codepoints pre ++ code ++ rest)%list
          = (code ++ rest)%list) as K.
  { replace (String.length pre) with (List.length (codepoints pre)).
    - now rewrite skipn_app, skipn_all, Nat.sub_diag.
    - unfold codepoints. rewrite length_map.
      clear. induction pre as [| a pre IH]; simpl; congruence. }
  rewrite K, take_while_run by assumption.
  destruct code; [ contradiction | reflexivity ].
Qed.

End InstagramFacts.

Import InstagramFacts.

(** X18.  Whatever the input (and whatever [strip] does), the shortcode
    holds characters of [A-Za-z0-9_-] only, and the code [get_media_id]
    passes on is its first 11 characters, all of it when it is shorter. *)
Theorem shortcode_has_code_characters_only :
  forall (py_strip : Col.ustring -> Col.ustring) (input : Col.ustring),
  let code := Instagram.clean_shortcode py_strip input in
  forallb Instagram.is_code_char code = true /\
  Instagram.media_code py_strip input = firstn 11 code /\
  length_u (Instagram.media_code py_strip input) <= 11.
Proof.
  intros py_strip input code.
  assert (Instagram.media_code py_strip input = firstn 11 code) as E.
  { unfold Instagram.media_code. fold code. cbv zeta.
    destruct (11 <=? length_u code) eqn:L; [ reflexivity |].
    apply Z.leb_gt in L. unfold length_u in L.
    symmetry. apply firstn_all2. lia. }
  split; [| split; [ exact E |] ].
  - subst code. unfold Instagram.clean_shortcode.
    destruct (Instagram.re_search input) as [g |] eqn:S.
    + eapply re_search_all, S.
    + apply forallb_forall. intros c H. now apply filter_In in H.
  - rewrite E. unfold length_u. pose proof (firstn_le_length 11 code). lia.
Qed.

(** X19.  The address of a post gives back its shortcode: for a non-empty
    code of code characters, followed by nothing or by a character that is
    not one (the "/" or "?" of an address), [clean_shortcode] of
    "https://www.instagram.com/p/", the code and the rest is the code; the
    same with "/reel/" and "/tv/" in place of "/p/". *)
Theorem post_address_gives_its_shortcode :
  forall (py_strip : Col.ustring -> Col.ustring) (code rest : Col.ustring),
  code <> [] ->
  forallb Instagram.is_code_char code = true ->
  match rest with
  | [] => true
  | c :: _ => negb (Instagram.is_code_char c)
  end = true ->
  Instagram.clean_shortcode py_strip
    (codepoints "https://www.instagram.com" ++ codepoints "/p/"
     ++ code ++ rest)%list = code /\
  Instagram.clean_shortcode py_strip
    (codepoints "https://www.instagram.com" ++ codepoints "/reel/"
     ++ code ++ rest)%list = code /\
  Instagram.clean_shortcode py_strip
    (codepoints "https://www.instagram.com" ++ codepoints "/tv/"
     ++ code ++ rest)%list = code.
Proof.
  intros py_strip code rest Hne Hc Hr.
  pose proof (match_with_run "/p/" code rest Hne Hc Hr) as Mp.
  pose proof (match_with_run "/reel/" code rest Hne Hc Hr) as Mr.
  pose proof (match_with_run "/tv/" code rest Hne Hc Hr) as Mt.
  unfold Instagram.clean_shortcode.
  let v := eval vm_compute in (codepoints "https://www.instagram.com") in
  change (codepoints "https://www.instagram.com") with v.
  cbn [app].
  repeat split.
  - repeat (rewrite re_search_next by reflexivity).
    set (s := (codepoints "/p/" ++ code ++ rest)%list) in *.
    assert (Instagram.re_search s = Some code) as E.
    { destruct s; cbn [Instagram.re_search];
        unfold Instagram.match_at; now rewrite Mp. }
    now rewrite E.
  - repeat (rewrite re_search_next by reflexivity).
    set (s := (codepoints "/reel/" ++ code ++ rest)%list) in *.
    assert (Instagram.re_search s = Some code) as E.
    { assert (Instagram.match_with "/p/" s = None) as Np by reflexivity.
      destruct s; cbn [Instagram.re_search];
        unfold Instagram.match_at; now rewrite Np, Mr. }
    now rewrite E.
  - repeat (rewrite re_search_next by reflexivity).
    set (s := (codepoints "/tv/" ++ code ++ rest)%list) in *.
    assert (Instagram.re_search s = Some code) as E.
    { assert (Instagram.match_with "/p/" s = None) as Np by reflexivity.
      assert (Instagram.match_with "/reel/" s = None) as Nr by reflexivity.
      destruct s; cbn [Instagram.re_search];
        unfold Instagram.match_at; now rewrite Np, Nr, Mt. }
    now rewrite E.
Qed.

Lemma post_address_gives_its_shortcode_witness :
  Instagram.clean_shortcode (fun s => s)
    (codepoints "https://www.instagram.com" ++ codepoints "/p/"
     ++ codepoints "C-5ByQHsUa_" ++ codepoints "/?utm_source=ig_web")%list
  = codepoints "C-5ByQHsUa_".
Proof.
  refine (proj1 (post_address_gives_its_shortcode (fun s => s)
                   (codepoints "C-5ByQHsUa_")
                   (codepoints "/?utm_source=ig_web") _ _ _)).
  - vm_compute. discriminate.
  - vm_compute. reflexivity.
  - vm_compute. reflexivity.
Defined.
